(** * fix_timezone.py: the timezone remediation tool of Memoet

    A shallow embedding of [src/fix_timezone.py] and the properties of its
    specification.  The script talks to PostgreSQL through psycopg2, writes
    one file and prints to the console; all three are made explicit in a
    [world] that every operation threads, together with the exceptions
    Python would raise. *)

From Stdlib Require Import ZArith List String Bool Lia.
Import ListNotations.
Open Scope string_scope.
Open Scope Z_scope.

(** ** Data *)

(** A Python [dict] with string keys, in insertion order. *)
Definition dict : Type := list (string * string).

Fixpoint lookup (k : string) (d : dict) : option string :=
  match d with
  | [] => None
  | (k', v) :: d' => if String.eqb k k' then Some v else lookup k d'
  end.

(** [list(d.keys())] and [d.values()] *)
Definition keys (d : dict) : list string := map fst d.
Definition values (d : dict) : list string := map snd d.

(** [x in xs] on a tuple of strings *)
Fixpoint mem (x : string) (xs : list string) : bool :=
  match xs with
  | [] => false
  | y :: ys => if String.eqb x y then true else mem x ys
  end.

(** Lines 25-42. *)
Definition TIMEZONE_MAPPING : dict :=
  [ ("US/Central", "America/Chicago");
    ("US/Eastern", "America/New_York");
    ("US/Mountain", "America/Denver");
    ("US/Pacific", "America/Los_Angeles");
    ("US/Alaska", "America/Anchorage");
    ("US/Arizona", "America/Phoenix");
    ("US/East-Indiana", "America/Indiana/Indianapolis");
    ("US/Hawaii", "Pacific/Honolulu");
    ("Canada/Atlantic", "America/Halifax");
    ("Canada/Central", "America/Winnipeg");
    ("Canada/Eastern", "America/Toronto");
    ("Canada/Mountain", "America/Edmonton");
    ("Canada/Newfoundland", "America/St_Johns");
    ("Canada/Pacific", "America/Vancouver");
    ("Canada/Saskatchewan", "America/Regina");
    ("Canada/Yukon", "America/Whitehorse") ].

(** A row of [srs_configs]: the two columns the script names, and the
    remaining columns, which it never mentions. *)
Record row : Type := mkRow {
  id : Z;
  timezone : string;
  other_columns : list string
}.

Definition table : Type := list row.

(** The Elixir module that [generate_timezone_mapping_file] writes
    (lines 173-204), as the definitions it contains. *)
Module TimezoneMapping.

(** [@timezone_mapping], lines 178-195 *)
Definition timezone_mapping : dict :=
  [ ("US/Central", "America/Chicago");
    ("US/Eastern", "America/New_York");
    ("US/Mountain", "America/Denver");
    ("US/Pacific", "America/Los_Angeles");
    ("US/Alaska", "America/Anchorage");
    ("US/Arizona", "America/Phoenix");
    ("US/East-Indiana", "America/Indiana/Indianapolis");
    ("US/Hawaii", "Pacific/Honolulu");
    ("Canada/Atlantic", "America/Halifax");
    ("Canada/Central", "America/Winnipeg");
    ("Canada/Eastern", "America/Toronto");
    ("Canada/Mountain", "America/Edmonton");
    ("Canada/Newfoundland", "America/St_Johns");
    ("Canada/Pacific", "America/Vancouver");
    ("Canada/Saskatchewan", "America/Regina");
    ("Canada/Yukon", "America/Whitehorse") ].

(** Elixir's [Map.get(map, key, default)] *)
Definition Map_get (m : dict) (key default : string) : string :=
  match lookup key m with
  | Some v => v
  | None => default
  end.

(** Lines 197-199. *)
Definition normalize_timezone (timezone : string) : string :=
  Map_get timezone_mapping timezone timezone.

(** Lines 201-203. *)
Definition get_mapping : dict := timezone_mapping.

End TimezoneMapping.

(** ** The world outside the process *)

(** The exceptions that reach the script, all subclasses of [Exception]:
    [psycopg2.Error] is the one its handlers name; [OSError] is what
    [open] raises; [AttributeError] is a method call on [None]. *)
Inductive exn : Type :=
| Psycopg2Error
| OSError
| AttributeError.

Definition is_psycopg2_error (e : exn) : bool :=
  match e with
  | Psycopg2Error => true
  | _ => false
  end.

(** What the outside does at one call that leaves the process
    ([psycopg2.connect], [cursor.execute], [open]): the call goes through,
    it raises, or another client of the database has left [srs_configs]
    as [t] by the time the call is served. *)
Inductive event : Type :=
| Proceed
| Throw (e : exn)
| Intervene (t : table).

(** One constructor for each [print] of the script. *)
Inductive msg : Type :=
| Connected                                      (* line 54 *)
| FailedToConnect                                (* line 57 *)
| ConnectionClosed                               (* line 64 *)
| NoMappingFound (old_timezone : string)         (* line 87 *)
| UpdatedUser (user_id : Z) (old_timezone new_timezone : string) (* line 108 *)
| FailedToUpdate (user_id : Z)                   (* line 111 *)
| DatabaseErrorUpdating (user_id : Z)            (* line 115 *)
| Scanning                                       (* line 122 *)
| NoInvalidTimezones                             (* line 127 *)
| FoundUsers (n : nat)                           (* line 130 *)
| TimezoneWorks (tz : string)                    (* line 156 *)
| TimezoneFailed (tz : string)                   (* line 159 *)
| TimezoneError (tz : string)                    (* line 163 *)
| GeneratedMappingFile                           (* line 210 *)
| Banner                                         (* line 214 *)
| Rule                                           (* line 215 *)
| TestingCompatibility                           (* line 224 *)
| FixingInvalid                                  (* line 229 *)
| Results                                        (* line 232 *)
| FixedCount (n : nat)                           (* line 233 *)
| FailedCount (n : nat)                          (* line 234 *)
| GeneratingMappingFile                          (* line 237 *)
| TestingFixed                                   (* line 241 *)
| Completed                                      (* line 244 *)
| ErrorReport (e : exn).                         (* line 247 *)

(** [self.connection]: [None] until [connect], then a psycopg2 connection,
    open or closed. *)
Inductive connection_state : Type :=
| NoConnection
| OpenConnection
| ClosedConnection.

(** - [store]: the committed rows of [srs_configs], what a new session reads;
    - [view]: the rows as this connection's transaction reads and writes
      them (the store and the connection's own uncommitted updates);
    - [autocommit]: the connection's attribute of that name;
    - [txn_failed]: a statement of the open transaction has raised;
      PostgreSQL then refuses every further statement until a rollback
      (psycopg2 raises [InFailedSqlTransaction]), and the script has no
      rollback;
    - [script]: what the outside will do at the coming calls, [Proceed]
      once the list is used up;
    - [artifact]: the mapping held by the file at the fixed path of line 207,
      if the file has been written;
    - [console]: what has been printed, oldest first. *)
Record world : Type := mkWorld {
  store : table;
  view : table;
  connection : connection_state;
  autocommit : bool;
  txn_failed : bool;
  script : list event;
  artifact : option dict;
  console : list msg
}.

Definition set_store (t : table) (w : world) : world :=
  mkWorld t (view w) (connection w) (autocommit w) (txn_failed w)
          (script w) (artifact w) (console w).
Definition set_view (t : table) (w : world) : world :=
  mkWorld (store w) t (connection w) (autocommit w) (txn_failed w)
          (script w) (artifact w) (console w).
Definition set_connection (c : connection_state) (w : world) : world :=
  mkWorld (store w) (view w) c (autocommit w) (txn_failed w)
          (script w) (artifact w) (console w).
Definition set_autocommit (b : bool) (w : world) : world :=
  mkWorld (store w) (view w) (connection w) b (txn_failed w)
          (script w) (artifact w) (console w).
Definition set_txn_failed (b : bool) (w : world) : world :=
  mkWorld (store w) (view w) (connection w) (autocommit w) b
          (script w) (artifact w) (console w).
Definition set_script (s : list event) (w : world) : world :=
  mkWorld (store w) (view w) (connection w) (autocommit w) (txn_failed w)
          s (artifact w) (console w).
Definition set_artifact (a : option dict) (w : world) : world :=
  mkWorld (store w) (view w) (connection w) (autocommit w) (txn_failed w)
          (script w) a (console w).
Definition set_console (c : list msg) (w : world) : world :=
  mkWorld (store w) (view w) (connection w) (autocommit w) (txn_failed w)
          (script w) (artifact w) c.

(** ** Computations: state and exceptions *)

Inductive outcome (A : Type) : Type :=
| Returned (a : A)
| Raised (e : exn).
Arguments Returned {A} a.
Arguments Raised {A} e.

Definition M (A : Type) : Type := world -> outcome A * world.

Definition ret {A} (a : A) : M A := fun w => (Returned a, w).

Definition raise {A} (e : exn) : M A := fun w => (Raised e, w).

Definition bind {A B} (m : M A) (k : A -> M B) : M B :=
  fun w =>
    match m w with
    | (Returned a, w') => k a w'
    | (Raised e, w') => (Raised e, w')
    end.

Declare Scope py_scope.
Delimit Scope py_scope with py.
Notation "x <- m ;; k" := (bind m (fun x => k))
  (at level 61, m at next level, right associativity) : py_scope.
Notation "m ;; k" := (bind m (fun _ => k))
  (at level 61, right associativity) : py_scope.
Open Scope py_scope.

(** [try: body  except psycopg2.Error: handler] *)
Definition except_psycopg2 {A} (body handler : M A) : M A :=
  fun w =>
    match body w with
    | (Raised Psycopg2Error, w') => handler w'
    | r => r
    end.

(** [try: body  except Exception as e: handler e] *)
Definition except_Exception {A} (body : M A) (handler : exn -> M A) : M A :=
  fun w =>
    match body w with
    | (Raised e, w') => handler e w'
    | r => r
    end.

(** [try: body  finally: cleanup]; the cleanups of this script do not raise,
    and what the body returned or raised stands. *)
Definition finally {A} (body : M A) (cleanup : M unit) : M A :=
  fun w =>
    match body w with
    | (r, w') => (r, snd (cleanup w'))
    end.

Definition print (m : msg) : M unit :=
  fun w => (Returned tt, set_console (console w ++ [m]) w).

(** ** psycopg2 and the file system *)

Definition next_event : M event :=
  fun w =>
    match script w with
    | [] => (Returned Proceed, w)
    | e :: s => (Returned e, set_script s w)
    end.

(** Another client's committed write: the store holds [t], and this
    connection reads [t] from now on. *)
Definition intervene (t : table) : M unit :=
  fun w => (Returned tt, set_view t (set_store t w)).

(** [psycopg2.connect] with [self.db_config] *)
Definition psycopg2_connect : M unit :=
  e <- next_event ;;
  match e with
  | Proceed => ret tt
  | Throw x => raise x
  | Intervene t => intervene t
  end ;;
  fun w =>
    (Returned tt,
     set_txn_failed false
       (set_view (store w) (set_connection OpenConnection w))).

(** [self.connection.cursor()]: needs a connection, and an open one. *)
Definition cursor : M unit :=
  fun w =>
    match connection w with
    | NoConnection => (Raised AttributeError, w)
    | ClosedConnection => (Raised Psycopg2Error, w)
    | OpenConnection => (Returned tt, w)
    end.

(** [cursor.close()] *)
Definition cursor_close : M unit := ret tt.

(** The server turns the statement down: psycopg2 raises, and the
    transaction is left in its failed state. *)
Definition reject {A} : M A :=
  fun w => (Raised Psycopg2Error, set_txn_failed true w).

(** What every [cursor.execute] does before the statement's own effect.
    Another client's write lands whatever the state of this connection;
    a failed transaction has the statement refused; otherwise the script
    says whether the call raises. *)
Definition send_statement : M unit :=
  e <- next_event ;;
  match e with
  | Intervene t => intervene t
  | _ => ret tt
  end ;;
  fun w =>
    if txn_failed w then (Raised Psycopg2Error, w)
    else
      match e with
      | Throw x => if is_psycopg2_error x then reject w else (Raised x, w)
      | _ => (Returned tt, w)
      end.

(** [SELECT id, timezone FROM srs_configs WHERE timezone IN %s] with the
    tuple [ks]; [fetchall] then gives the rows.  psycopg2 writes a tuple as
    a parenthesised list, and PostgreSQL has no empty [IN ()]: with the
    empty tuple the statement is a syntax error. *)
Definition select_legacy (ks : list string) (t : table) : list (Z * string) :=
  map (fun r => (id r, timezone r)) (filter (fun r => mem (timezone r) ks) t).

Definition execute_select_in (ks : list string) : M (list (Z * string)) :=
  send_statement ;;
  match ks with
  | [] => reject
  | _ => fun w => (Returned (select_legacy ks (view w)), w)
  end.

(** [UPDATE srs_configs SET timezone = %s WHERE id = %s] *)
Definition update_row (new_timezone : string) (user_id : Z) (r : row) : row :=
  if Z.eqb (id r) user_id then mkRow (id r) new_timezone (other_columns r)
  else r.

Definition update_timezone (new_timezone : string) (user_id : Z) (t : table)
  : table :=
  map (update_row new_timezone user_id) t.

Definition execute_update (new_timezone : string) (user_id : Z) : M unit :=
  send_statement ;;
  fun w =>
    let t := update_timezone new_timezone user_id (view w) in
    (Returned tt, if autocommit w then set_store t (set_view t w)
                  else set_view t w).

(** [SELECT timezone FROM srs_configs WHERE id = %s] *)
Definition select_timezone (user_id : Z) (t : table) : list string :=
  map timezone (filter (fun r => Z.eqb (id r) user_id) t).

Definition execute_select_timezone (user_id : Z) : M (list string) :=
  send_statement ;;
  fun w => (Returned (select_timezone user_id (view w)), w).

(** [SELECT date(now() at time zone 'utc' at time zone %s)]: one row when
    the server accepts the zone name; a server that does not know the name
    raises, which is a [Throw Psycopg2Error] of the script. *)
Definition execute_select_date (tz : string) : M (list unit) :=
  send_statement ;;
  ret [tt].

(** [cursor.fetchone()] *)
Definition fetchone {A} (rows : list A) : option A := hd_error rows.

(** [open(path, 'w')] and [f.write(mapping_content)] *)
Definition write_file (content : dict) : M unit :=
  e <- next_event ;;
  match e with
  | Proceed => ret tt
  | Throw x => raise x
  | Intervene t => intervene t
  end ;;
  fun w => (Returned tt, set_artifact (Some content) w).

(** [self.connection.close()]: what the transaction has not committed is
    discarded. *)
Definition connection_close : M unit :=
  fun w =>
    (Returned tt, set_view (store w) (set_connection ClosedConnection w)).

(** ** class TimezoneFixer *)

Record report : Type := mkReport {
  fixed : nat;
  failed : nat
}.

Section TimezoneFixer.

(** The module-level constant the methods read; a variable here, so that
    a property can speak of another mapping than the one of line 25. *)
Variable mapping : dict.

(** Lines 49-58. *)
Definition connect : M bool :=
  except_psycopg2
    (psycopg2_connect ;;
     (fun w => (Returned tt, set_autocommit false w)) ;;
     print Connected ;;
     ret true)
    (print FailedToConnect ;;
     ret false).

(** Lines 60-64. *)
Definition disconnect : M unit :=
  fun w =>
    match connection w with
    | NoConnection => (Returned tt, w)
    | _ => (connection_close ;; print ConnectionClosed) w
    end.

(** Lines 66-82. *)
Definition get_invalid_timezones : M (list (Z * string)) :=
  cursor ;;
  let invalid_timezones := keys mapping in
  results <- execute_select_in invalid_timezones ;;
  cursor_close ;;
  ret results.

(** Lines 84-118. *)
Definition fix_timezone (user_id : Z) (old_timezone : string) : M bool :=
  match lookup old_timezone mapping with
  | None =>
      print (NoMappingFound old_timezone) ;;
      ret false
  | Some new_timezone =>
      cursor ;;
      finally
        (except_psycopg2
           (execute_update new_timezone user_id ;;
            rows <- execute_select_timezone user_id ;;
            match fetchone rows with
            | Some tz =>
                if String.eqb tz new_timezone then
                  print (UpdatedUser user_id old_timezone new_timezone) ;;
                  ret true
                else
                  print (FailedToUpdate user_id) ;;
                  ret false
            | None =>
                print (FailedToUpdate user_id) ;;
                ret false
            end)
           (print (DatabaseErrorUpdating user_id) ;;
            ret false))
        cursor_close
  end.

(** The loop of lines 135-139. *)
Fixpoint fix_loop (invalid_users : list (Z * string))
         (fixed_count failed_count : nat) : M report :=
  match invalid_users with
  | [] => ret (mkReport fixed_count failed_count)
  | (user_id, old_timezone) :: rest =>
      ok <- fix_timezone user_id old_timezone ;;
      if ok then fix_loop rest (S fixed_count) failed_count
      else fix_loop rest fixed_count (S failed_count)
  end.

(** Lines 120-141. *)
Definition fix_all_timezones : M report :=
  print Scanning ;;
  invalid_users <- get_invalid_timezones ;;
  match invalid_users with
  | [] =>
      print NoInvalidTimezones ;;
      ret (mkReport 0 0)
  | _ =>
      print (FoundUsers (List.length invalid_users)) ;;
      fix_loop invalid_users 0 0
  end.

(** Lines 143-166. *)
Definition test_timezone_query (tz : string) : M bool :=
  cursor ;;
  finally
    (except_psycopg2
       (rows <- execute_select_date tz ;;
        match fetchone rows with
        | Some _ =>
            print (TimezoneWorks tz) ;;
            ret true
        | None =>
            print (TimezoneFailed tz) ;;
            ret false
        end)
       (print (TimezoneError tz) ;;
        ret false))
    cursor_close.

(** Lines 168-210. *)
Definition generate_timezone_mapping_file : M unit :=
  write_file TimezoneMapping.timezone_mapping ;;
  print GeneratedMappingFile.

(** The body of the [try] of [main], lines 223-244. *)
Definition main_body : M unit :=
  print TestingCompatibility ;;
  test_timezone_query "US/Central" ;;
  test_timezone_query "America/Chicago" ;;
  print FixingInvalid ;;
  results <- fix_all_timezones ;;
  print Results ;;
  print (FixedCount (fixed results)) ;;
  print (FailedCount (failed results)) ;;
  print GeneratingMappingFile ;;
  generate_timezone_mapping_file ;;
  print TestingFixed ;;
  test_timezone_query "America/Chicago" ;;
  print Completed.

(** Lines 212-250; the value is the status that [sys.exit] is given, 0
    when [main] returns. *)
Definition main : M Z :=
  print Banner ;;
  print Rule ;;
  connected <- connect ;;
  if negb connected then ret 1
  else
    finally
      (except_Exception
         (main_body ;; ret 0)
         (fun e => print (ErrorReport e) ;; ret 1))
      disconnect.

End TimezoneFixer.

(** The status the process ends with: an exception that leaves [main]
    ends the interpreter with status 1. *)
Definition exit_code (r : outcome Z) : Z :=
  match r with
  | Returned c => c
  | Raised _ => 1
  end.

(** A fresh process in front of a database holding [t], the outside
    behaving as [s]. *)
Definition start (t : table) (s : list event) : world :=
  mkWorld t t NoConnection false false s None [].

(** ** Conditions on the outside, and what a run amounts to *)

(** Every coming call goes through. *)
Definition quiet (s : list event) : Prop := Forall (fun e => e = Proceed) s.

(** An open connection whose transaction has not failed, in front of a
    quiet outside. *)
Definition ready (w : world) : Prop :=
  connection w = OpenConnection /\ txn_failed w = false /\ quiet (script w).

(** No other client writes. *)
Definition undisturbed (s : list event) : Prop :=
  Forall (fun e => match e with Intervene _ => False | _ => True end) s.

(** Whatever is raised from outside is a database error. *)
Definition database_errors_only (s : list event) : Prop :=
  Forall (fun e => match e with
                   | Throw x => is_psycopg2_error x = true
                   | _ => True
                   end) s.

(** [r'] is [r] but for its timezone column, and is [r] itself unless the
    row's identifier is [user_id]. *)
Definition same_but_timezone_of (user_id : Z) (r r' : row) : Prop :=
  id r' = id r /\ other_columns r' = other_columns r /\
  (id r <> user_id -> r' = r).

(** What the updates of the loop over [invalid_users] make of one row. *)
Definition fix_row (mapping : dict) (invalid_users : list (Z * string))
           (r : row) : row :=
  fold_left
    (fun r (u : Z * string) =>
       match lookup (snd u) mapping with
       | Some new_timezone => update_row new_timezone (fst u) r
       | None => r
       end)
    invalid_users r.

(** An open connection on a database holding [t], nothing pending, in front
    of a quiet outside. *)
Definition session (t : table) : world :=
  mkWorld t t OpenConnection false false [] None [].

(** The table of the specification's example. *)
Definition example_table : table :=
  [ mkRow 1 "US/Central" [];
    mkRow 2 "America/Chicago" [];
    mkRow 3 "US/Nonexistent" [] ].

(** A connection on a one-row table where, once the update is served,
    another client puts the legacy name back before the row is read again. *)
Definition legacy_row : table := [mkRow 1 "US/Central" []].

Definition reverting_session : world :=
  mkWorld legacy_row legacy_row OpenConnection false false
          [Proceed; Intervene legacy_row] None [].

(** An open connection in front of an outside that raises database errors
    only. *)
Definition alive (w : world) : Prop :=
  connection w = OpenConnection /\ database_errors_only (script w).



(** Two rows with further columns, behind an open connection. *)
Definition two_users : table :=
  [mkRow 1 "US/Central" ["deck 7"]; mkRow 2 "US/Eastern" ["deck 9"]].

(** [m] keeps [I]: from a world where [I] holds it ends in one where [I]
    holds, whether it returns or raises. *)
Definition preserves {A} (I : world -> Prop) (m : M A) : Prop :=
  forall w, I w -> I (snd (m w)).

(** The connection is open. *)
Definition connection_open (w : world) : Prop := connection w = OpenConnection.

(** The committed rows are [t], the connection does not commit by itself,
    and no other client writes. *)
Definition uncommitted (t : table) (w : world) : Prop :=
  store w = t /\ autocommit w = false /\ undisturbed (script w).

(** A run on the example table in which every call is served but the
    writing of the mapping file, the seventh call to leave the process
    (after [connect], two probes, the scan, one update and its read-back). *)
Definition unwritable_artifact_run : world :=
  start example_table
        [Proceed; Proceed; Proceed; Proceed; Proceed; Proceed; Throw OSError].

(** What the Elixir module's [normalize_timezone] makes of a row. *)
Definition normalize_row (r : row) : row :=
  mkRow (id r) (TimezoneMapping.normalize_timezone (timezone r))
        (other_columns r).

(** Some row has the identifier [user_id]. *)
Definition has_id (user_id : Z) (t : table) : bool :=
  existsb (fun r => Z.eqb (id r) user_id) t.

(** The message of a row that was fixed. *)
Definition is_updated (m : msg) : bool :=
  match m with
  | UpdatedUser _ _ _ => true
  | _ => false
  end.

(** A connection that has been closed by [disconnect]. *)
Definition closed_session (t : table) : world :=
  mkWorld t t ClosedConnection false false [] None [].

(** An open connection whose first statement the server turns down. *)
Definition refused_session (t : table) : world :=
  mkWorld t t OpenConnection false false [Throw Psycopg2Error] None [].

(** The rows and the mapping file are those of [w0], and no other client
    writes. *)
Definition untouched (w0 w : world) : Prop :=
  view w = view w0 /\ store w = store w0 /\ artifact w = artifact w0 /\
  undisturbed (script w).

(** The console is that of [w0] and then messages none of which says that
    a mapping is missing. *)
Definition no_mapping_missed (w0 w : world) : Prop :=
  exists msgs,
    console w = (console w0 ++ msgs)%list /\
    forall tz, ~ In (NoMappingFound tz) msgs.

(** An open connection whose transaction has failed. *)
Definition failed_session (t : table) : world :=
  mkWorld t t OpenConnection false true [] None [].

(** Hints for the invariants of a run. *)
Create HintDb keep.

(** * Properties *)

(** ** The mapping *)

Lemma mem_In (x : string) (xs : list string) : mem x xs = true <-> In x xs.
Proof.
  induction xs as [|y ys IH]; simpl.
  - split; [discriminate | tauto].
  - destruct (String.eqb_spec x y) as [->|Hne].
    + split; auto.
    + rewrite IH. split; [auto | intros [Heq|Hin]; [congruence | exact Hin]].
Qed.

Lemma lookup_mem (k : string) (d : dict) :
  mem k (keys d) = true <-> exists v, lookup k d = Some v.
Proof.
  induction d as [|[k' v'] d IH]; simpl.
  - split; [discriminate | intros [v Hv]; discriminate].
  - destruct (String.eqb k k'); [split; eauto | exact IH].
Qed.

Lemma lookup_In_values (k v : string) (d : dict) :
  lookup k d = Some v -> In v (values d).
Proof.
  induction d as [|[k' v'] d IH]; simpl; [discriminate|].
  destruct (String.eqb k k'); [intros [= ->]; auto | auto].
Qed.

(** No canonical name of line 25's table is itself a legacy name. *)
Lemma canonical_not_legacy (k v : string) :
  lookup k TIMEZONE_MAPPING = Some v -> mem v (keys TIMEZONE_MAPPING) = false.
Proof.
  intros Hl. apply lookup_In_values in Hl.
  assert (Hall : forallb (fun v => negb (mem v (keys TIMEZONE_MAPPING)))
                         (values TIMEZONE_MAPPING) = true) by reflexivity.
  rewrite forallb_forall in Hall. apply Hall in Hl.
  now apply negb_true_iff in Hl.
Qed.

(** The table written into the Elixir module is the table of line 25. *)
Lemma artifact_table_is_mapping :
  TimezoneMapping.get_mapping = TIMEZONE_MAPPING.
Proof. reflexivity. Qed.

(** C9: the lookup function of the generated module returns, for every pair
    [(k, v)] of the mapping table, [v] at [k], and returns every string that
    is not a key of the table unchanged; being a function on all strings, it
    is total. *)
Theorem normalize_timezone_identity_default (s : string) :
  (forall v, In (s, v) TIMEZONE_MAPPING ->
             TimezoneMapping.normalize_timezone s = v) /\
  (~ In s (keys TIMEZONE_MAPPING) ->
   TimezoneMapping.normalize_timezone s = s).
Proof.
  split.
  - intros v Hin. simpl in Hin.
    repeat (destruct Hin as [[= <- <-]|Hin]; [reflexivity|]).
    contradiction.
  - intros Hnot. unfold TimezoneMapping.normalize_timezone,
      TimezoneMapping.Map_get.
    change TimezoneMapping.timezone_mapping with TIMEZONE_MAPPING.
    destruct (lookup s TIMEZONE_MAPPING) as [v|] eqn:Hl; [|reflexivity].
    exfalso. apply Hnot, mem_In, lookup_mem. eauto.
Qed.

Lemma normalize_timezone_identity_default_witness :
  TimezoneMapping.normalize_timezone "Canada/Yukon" = "America/Whitehorse" /\
  TimezoneMapping.normalize_timezone "Europe/Paris" = "Europe/Paris".
Proof.
  split.
  - apply (proj1 (normalize_timezone_identity_default "Canada/Yukon")).
    simpl. do 15 right. left. reflexivity.
  - apply (proj2 (normalize_timezone_identity_default "Europe/Paris")).
    intros Hin. apply mem_In in Hin. vm_compute in Hin. discriminate.
Defined.

(** ** The calls to the outside *)

Lemma quiet_tl (s : list event) : quiet s -> quiet (tl s).
Proof. intros H. destruct s; [exact H | now inversion H]. Qed.

Lemma next_event_eq (w : world) :
  next_event w
  = (Returned (hd Proceed (script w)), set_script (tl (script w)) w).
Proof. destruct w as [st vw cn ac tf [|e s] ar co]; reflexivity. Qed.

Lemma quiet_hd (s : list event) : quiet s -> hd Proceed s = Proceed.
Proof. intros H. destruct s; [reflexivity | now inversion H]. Qed.

Lemma send_statement_ready (w : world) :
  ready w ->
  send_statement w = (Returned tt, set_script (tl (script w)) w).
Proof.
  intros (_ & Hf & Hq). unfold send_statement, bind.
  rewrite next_event_eq, (quiet_hd _ Hq). simpl. now rewrite Hf.
Qed.

Lemma ready_next (w : world) : ready w -> ready (set_script (tl (script w)) w).
Proof.
  intros (Hc & Hf & Hq). repeat split; simpl; auto using quiet_tl.
Qed.

Lemma cursor_open (w : world) :
  connection w = OpenConnection -> cursor w = (Returned tt, w).
Proof. intros H. unfold cursor. now rewrite H. Qed.

Lemma bind_returned {A B} (m : M A) (k : A -> M B) (w w' : world) (a : A) :
  m w = (Returned a, w') -> bind m k w = k a w'.
Proof. intros H. unfold bind. now rewrite H. Qed.

Lemma bind_raised {A B} (m : M A) (k : A -> M B) (w w' : world) (e : exn) :
  m w = (Raised e, w') -> bind m k w = (Raised e, w').
Proof. intros H. unfold bind. now rewrite H. Qed.

Lemma execute_update_ready (new_timezone : string) (user_id : Z) (w : world) :
  ready w ->
  exists w',
    execute_update new_timezone user_id w = (Returned tt, w') /\
    ready w' /\
    view w' = update_timezone new_timezone user_id (view w).
Proof.
  intros Hr. unfold execute_update.
  rewrite (bind_returned _ _ _ _ _ (send_statement_ready w Hr)).
  eexists. split; [reflexivity|].
  apply ready_next in Hr.
  destruct (autocommit _); split; simpl; auto.
Qed.

Lemma execute_select_timezone_ready (user_id : Z) (w : world) :
  ready w ->
  exists w',
    execute_select_timezone user_id w
    = (Returned (select_timezone user_id (view w)), w') /\
    ready w' /\ view w' = view w.
Proof.
  intros Hr. unfold execute_select_timezone.
  rewrite (bind_returned _ _ _ _ _ (send_statement_ready w Hr)).
  eexists. split; [reflexivity|]. split; [now apply ready_next | reflexivity].
Qed.

Lemma fix_timezone_ready (mapping : dict) (user_id : Z)
      (old_timezone new_timezone : string) (w : world) :
  ready w ->
  lookup old_timezone mapping = Some new_timezone ->
  exists b w',
    fix_timezone mapping user_id old_timezone w = (Returned b, w') /\
    ready w' /\
    view w' = update_timezone new_timezone user_id (view w).
Proof.
  intros Hr Hl. unfold fix_timezone. rewrite Hl.
  rewrite (bind_returned _ _ _ _ _ (cursor_open w (proj1 Hr))).
  destruct (execute_update_ready new_timezone user_id w Hr)
    as (w1 & Hu & Hr1 & Hv1).
  destruct (execute_select_timezone_ready user_id w1 Hr1)
    as (w2 & Hs & Hr2 & Hv2).
  unfold finally, except_psycopg2.
  rewrite (bind_returned _ _ _ _ _ Hu), (bind_returned _ _ _ _ _ Hs).
  destruct (fetchone _) as [tz|]; [destruct (String.eqb tz new_timezone)|];
    (eexists; eexists; split; [reflexivity|]; split;
     [exact Hr2 | simpl; congruence]).
Qed.

(** ** Runs in front of a quiet outside *)

Lemma print_eq (m : msg) (w : world) :
  print m w = (Returned tt, set_console (console w ++ [m]) w).
Proof. reflexivity. Qed.

Lemma get_invalid_timezones_ready (mapping : dict) (w : world) :
  ready w ->
  mapping <> [] ->
  exists w',
    get_invalid_timezones mapping w
    = (Returned (select_legacy (keys mapping) (view w)), w') /\
    ready w' /\ view w' = view w.
Proof.
  intros Hr Hne. unfold get_invalid_timezones, execute_select_in.
  rewrite (bind_returned _ _ _ _ _ (cursor_open w (proj1 Hr))).
  destruct mapping as [|kv mapping]; [congruence|]. simpl keys.
  unfold bind at 1.
  rewrite (bind_returned _ _ _ _ _ (send_statement_ready w Hr)).
  eexists. split; [reflexivity|]. split; [now apply ready_next | reflexivity].
Qed.

Lemma fix_row_cons (mapping : dict) (u : Z * string)
      (l : list (Z * string)) (r : row) (new_timezone : string) :
  lookup (snd u) mapping = Some new_timezone ->
  fix_row mapping (u :: l) r
  = fix_row mapping l (update_row new_timezone (fst u) r).
Proof. intros H. unfold fix_row. simpl. now rewrite H. Qed.

Lemma fix_loop_ready (mapping : dict) (l : list (Z * string)) :
  forall (f g : nat) (w : world),
    ready w ->
    (forall u, In u l -> mem (snd u) (keys mapping) = true) ->
    exists rep w',
      fix_loop mapping l f g w = (Returned rep, w') /\
      ready w' /\
      view w' = map (fix_row mapping l) (view w) /\
      (fixed rep + failed rep = f + g + List.length l)%nat.
Proof.
  induction l as [|[user_id old_timezone] l IH]; intros f g w Hr Hkeys.
  - exists (mkReport f g), w. simpl. rewrite map_id.
    repeat split; try apply Hr; auto; lia.
  - destruct (proj1 (lookup_mem old_timezone mapping)) as [new_timezone Hl].
    { apply (Hkeys (user_id, old_timezone)). now left. }
    destruct (fix_timezone_ready mapping user_id old_timezone new_timezone
                                 w Hr Hl) as (b & w1 & Hfix & Hr1 & Hv1).
    cbn [fix_loop]. rewrite (bind_returned _ _ _ _ _ Hfix).
    assert (Hkeys' : forall u, In u l -> mem (snd u) (keys mapping) = true)
      by (intros u Hu; apply Hkeys; now right).
    destruct b.
    + destruct (IH (S f) g w1 Hr1 Hkeys')
        as (rep & w' & Hloop & Hr' & Hv' & Hn).
      exists rep, w'. split; [exact Hloop|]. split; [exact Hr'|]. split.
      * rewrite Hv', Hv1. unfold update_timezone. rewrite map_map.
        apply map_ext. intros r. symmetry. now apply fix_row_cons.
      * simpl. lia.
    + destruct (IH f (S g) w1 Hr1 Hkeys')
        as (rep & w' & Hloop & Hr' & Hv' & Hn).
      exists rep, w'. split; [exact Hloop|]. split; [exact Hr'|]. split.
      * rewrite Hv', Hv1. unfold update_timezone. rewrite map_map.
        apply map_ext. intros r. symmetry. now apply fix_row_cons.
      * simpl. lia.
Qed.

Lemma select_legacy_keys (ks : list string) (t : table) (u : Z * string) :
  In u (select_legacy ks t) <->
  exists r, In r t /\ id r = fst u /\ timezone r = snd u /\ In (snd u) ks.
Proof.
  unfold select_legacy. rewrite in_map_iff. split.
  - intros (r & <- & Hin). apply filter_In in Hin as [Hin Hm].
    exists r. simpl. repeat split; auto. now apply mem_In.
  - intros (r & Hin & Hid & Htz & Hk). exists r. split.
    + destruct u. simpl in *. congruence.
    + apply filter_In. split; [exact Hin|]. apply mem_In. congruence.
Qed.

Lemma fix_all_timezones_ready (mapping : dict) (w : world) :
  ready w ->
  mapping <> [] ->
  exists rep w',
    fix_all_timezones mapping w = (Returned rep, w') /\
    ready w' /\
    view w'
    = map (fix_row mapping (select_legacy (keys mapping) (view w))) (view w) /\
    (fixed rep + failed rep
     = List.length (select_legacy (keys mapping) (view w)))%nat.
Proof.
  intros Hr Hne. unfold fix_all_timezones.
  rewrite (bind_returned _ _ _ _ _ (print_eq Scanning w)).
  destruct (get_invalid_timezones_ready
              mapping (set_console (console w ++ [Scanning]) w))
    as (w1 & Hscan & Hr1 & Hv1); auto.
  rewrite (bind_returned _ _ _ _ _ Hscan).
  change (view (set_console (console w ++ [Scanning]) w)) with (view w) in *.
  destruct (select_legacy (keys mapping) (view w)) as [|u l] eqn:Hsel.
  - eexists. eexists. split; [reflexivity|]. simpl. rewrite map_id.
    split; [exact Hr1|]. split; [exact Hv1 | reflexivity].
  - rewrite (bind_returned _ _ _ _ _ (print_eq _ w1)).
    destruct (fix_loop_ready mapping (u :: l) 0 0
                (set_console
                   (console w1 ++ [FoundUsers (List.length (u :: l))]) w1))
      as (rep & w' & Hloop & Hr' & Hv' & Hn).
    + exact Hr1.
    + intros u' Hu'. rewrite <- Hsel in Hu'.
      apply select_legacy_keys in Hu' as (r & _ & _ & _ & Hk). now apply mem_In.
    + exists rep, w'. split; [exact Hloop|]. split; [exact Hr'|].
      split; [|exact Hn]. rewrite Hv'. simpl view. now rewrite Hv1.
Qed.

(** A row that the scan found, or that held no legacy name, holds none
    once the loop is through. *)
Lemma fix_row_settled (l : list (Z * string)) :
  forall r,
    (forall u, In u l -> mem (snd u) (keys TIMEZONE_MAPPING) = true) ->
    mem (timezone r) (keys TIMEZONE_MAPPING) = false
    \/ (exists tz, In (id r, tz) l) ->
    mem (timezone (fix_row TIMEZONE_MAPPING l r)) (keys TIMEZONE_MAPPING)
    = false.
Proof.
  induction l as [|u l IH]; intros r Hkeys Hr.
  - destruct Hr as [H|[tz []]]. exact H.
  - destruct (proj1 (lookup_mem (snd u) TIMEZONE_MAPPING)) as [new_timezone Hl].
    { apply Hkeys. now left. }
    rewrite (fix_row_cons _ _ _ _ _ Hl). apply IH.
    { intros u' Hu'. apply Hkeys. now right. }
    unfold update_row. destruct (Z.eqb_spec (id r) (fst u)) as [Heq|Hne].
    + left. simpl. exact (canonical_not_legacy _ _ Hl).
    + destruct Hr as [H|[tz [Hu|Hin]]].
      * now left.
      * subst u. simpl in Hne. congruence.
      * right. eauto.
Qed.

Lemma select_legacy_settled (ks : list string) (t : table) :
  (forall r, In r t -> mem (timezone r) ks = false) ->
  select_legacy ks t = [].
Proof.
  intros H. unfold select_legacy.
  induction t as [|r t IH]; [reflexivity|]. simpl.
  rewrite (H r) by now left. apply IH. intros r' Hr'. apply H. now right.
Qed.

Lemma TIMEZONE_MAPPING_nonempty : TIMEZONE_MAPPING <> [].
Proof. discriminate. Qed.

Lemma fix_all_timezones_none (mapping : dict) (w : world) :
  ready w ->
  mapping <> [] ->
  select_legacy (keys mapping) (view w) = [] ->
  exists w',
    fix_all_timezones mapping w = (Returned (mkReport 0 0), w') /\
    ready w' /\ view w' = view w.
Proof.
  intros Hr Hne Hnone. unfold fix_all_timezones.
  rewrite (bind_returned _ _ _ _ _ (print_eq Scanning w)).
  destruct (get_invalid_timezones_ready mapping
              (set_console (console w ++ [Scanning]) w))
    as (w1 & Hscan & Hr1 & Hv1); auto.
  rewrite (bind_returned _ _ _ _ _ Hscan).
  change (view (set_console (console w ++ [Scanning]) w)) with (view w) in *.
  rewrite Hnone. eexists. split; [reflexivity|]. split; [exact Hr1 | exact Hv1].
Qed.

(** C4: with an open connection and every statement served, a second
    [fix_all_timezones] after a first one reports no row fixed and none
    failed, whatever the table held: the first run leaves no row with a key
    of the mapping, since the values of the mapping are not keys. *)
Theorem fix_all_timezones_idempotent (w : world) :
  ready w ->
  exists rep1 w1 w2,
    fix_all_timezones TIMEZONE_MAPPING w = (Returned rep1, w1) /\
    fix_all_timezones TIMEZONE_MAPPING w1 = (Returned (mkReport 0 0), w2) /\
    view w2 = view w1.
Proof.
  intros Hr.
  destruct (fix_all_timezones_ready _ w Hr TIMEZONE_MAPPING_nonempty)
    as (rep1 & w1 & Hrun1 & Hr1 & Hv1 & _).
  assert (Hnone : select_legacy (keys TIMEZONE_MAPPING) (view w1) = []).
  { apply select_legacy_settled. intros r1 Hin. rewrite Hv1 in Hin.
    apply in_map_iff in Hin as (r & <- & Hin).
    apply fix_row_settled.
    - intros u Hu. apply select_legacy_keys in Hu as (_ & _ & _ & _ & Hk).
      now apply mem_In.
    - destruct (mem (timezone r) (keys TIMEZONE_MAPPING)) eqn:Hm; [|now left].
      right. exists (timezone r).
      apply (select_legacy_keys _ _ (id r, timezone r)).
      exists r. repeat split; auto. now apply mem_In. }
  destruct (fix_all_timezones_none _ w1 Hr1 TIMEZONE_MAPPING_nonempty Hnone)
    as (w2 & Hrun2 & _ & Hv2).
  exists rep1, w1, w2. auto.
Qed.

Lemma ready_session (t : table) : ready (session t).
Proof. repeat split. constructor. Qed.

Lemma fix_all_timezones_idempotent_witness :
  ready (session example_table) /\
  exists rep1 w1 w2,
    fix_all_timezones TIMEZONE_MAPPING (session example_table)
    = (Returned rep1, w1) /\
    fix_all_timezones TIMEZONE_MAPPING w1 = (Returned (mkReport 0 0), w2) /\
    view w2 = view w1.
Proof.
  split.
  - apply ready_session.
  - apply fix_all_timezones_idempotent. apply ready_session.
Defined.

Lemma quiet_first_three (s : list event) :
  quiet s ->
  s = [] \/ s = [Proceed] \/ s = [Proceed; Proceed] \/
  exists s', s = Proceed :: Proceed :: Proceed :: s'.
Proof.
  intros H. unfold quiet in H.
  destruct s as [|e1 [|e2 [|e3 s]]]; auto;
    repeat match goal with
           | H : Forall _ (_ :: _) |- _ =>
               apply Forall_cons_iff in H as [-> H]
           end; eauto 6.
Qed.

(** C6: the scan returns the rows of the table whose timezone is a key of
    the mapping, and only those; on the table (1, US/Central),
    (2, America/Chicago), (3, US/Nonexistent) it returns row 1 alone,
    [fix_all_timezones] reports one row fixed and none failed, and row 1
    then reads America/Chicago, the other rows as before. *)
Theorem scan_selects_mapping_keys :
  (forall w,
      ready w ->
      exists w',
        get_invalid_timezones TIMEZONE_MAPPING w
        = (Returned (select_legacy (keys TIMEZONE_MAPPING) (view w)), w') /\
        forall user_id tz,
          In (user_id, tz) (select_legacy (keys TIMEZONE_MAPPING) (view w))
          <-> exists r, In r (view w) /\ id r = user_id /\ timezone r = tz /\
                        In tz (keys TIMEZONE_MAPPING)) /\
  (forall w o1 o2 o3,
      ready w ->
      view w = [ mkRow 1 "US/Central" o1;
                 mkRow 2 "America/Chicago" o2;
                 mkRow 3 "US/Nonexistent" o3 ] ->
      exists w1 w2,
        get_invalid_timezones TIMEZONE_MAPPING w
        = (Returned [(1, "US/Central")], w1) /\
        fix_all_timezones TIMEZONE_MAPPING w = (Returned (mkReport 1 0), w2) /\
        view w2 = [ mkRow 1 "America/Chicago" o1;
                    mkRow 2 "America/Chicago" o2;
                    mkRow 3 "US/Nonexistent" o3 ]).
Proof.
  split.
  - intros w Hr.
    destruct (get_invalid_timezones_ready _ w Hr TIMEZONE_MAPPING_nonempty)
      as (w' & Hscan & _).
    exists w'. split; [exact Hscan|]. intros user_id tz.
    apply (select_legacy_keys _ _ (user_id, tz)).
  - intros [st vw cn ac tf sc ar co] o1 o2 o3 (Hc & Hf & Hq) Hv.
    simpl in Hc, Hf, Hq, Hv. subst cn tf vw.
    destruct (quiet_first_three sc Hq) as [->|[->|[->|(s' & ->)]]];
      destruct ac; (eexists; eexists; split; [cbv; reflexivity|];
                    split; cbv; reflexivity).
Qed.

Lemma scan_selects_mapping_keys_witness :
  ready (session example_table) /\
  fst (get_invalid_timezones TIMEZONE_MAPPING (session example_table))
  = Returned [(1, "US/Central")] /\
  fst (fix_all_timezones TIMEZONE_MAPPING (session example_table))
  = Returned (mkReport 1 0).
Proof.
  assert (Hr : ready (session example_table)) by apply ready_session.
  split; [exact Hr|].
  destruct (proj2 scan_selects_mapping_keys (session example_table) [] [] []
                  Hr eq_refl) as (w1 & w2 & Hscan & Hfix & _).
  rewrite Hscan, Hfix. split; reflexivity.
Defined.

(** ** One row: update, then read back *)

Lemma fix_timezone_mapped (mapping : dict) (user_id : Z)
      (old_timezone new_timezone : string) (w : world) :
  lookup old_timezone mapping = Some new_timezone ->
  connection w = OpenConnection ->
  fix_timezone mapping user_id old_timezone w
  = match execute_update new_timezone user_id w with
    | (Returned _, w1) =>
        match execute_select_timezone user_id w1 with
        | (Returned rows, w2) =>
            match fetchone rows with
            | Some tz =>
                if String.eqb tz new_timezone then
                  (Returned true,
                   set_console
                     (console w2
                      ++ [UpdatedUser user_id old_timezone new_timezone]) w2)
                else
                  (Returned false,
                   set_console (console w2 ++ [FailedToUpdate user_id]) w2)
            | None =>
                (Returned false,
                 set_console (console w2 ++ [FailedToUpdate user_id]) w2)
            end
        | (Raised Psycopg2Error, w2) =>
            (Returned false,
             set_console (console w2 ++ [DatabaseErrorUpdating user_id]) w2)
        | (Raised e, w2) => (Raised e, w2)
        end
    | (Raised Psycopg2Error, w1) =>
        (Returned false,
         set_console (console w1 ++ [DatabaseErrorUpdating user_id]) w1)
    | (Raised e, w1) => (Raised e, w1)
    end.
Proof.
  intros Hl Hc. unfold fix_timezone. rewrite Hl.
  rewrite (bind_returned _ _ _ _ _ (cursor_open w Hc)).
  unfold finally, except_psycopg2. unfold bind at 1.
  destruct (execute_update new_timezone user_id w) as [[[]|e] w1].
  - unfold bind at 1.
    destruct (execute_select_timezone user_id w1) as [[rows|e] w2].
    + destruct (fetchone rows) as [tz|];
        [destruct (String.eqb tz new_timezone)|]; reflexivity.
    + destruct e; reflexivity.
  - destruct e; reflexivity.
Qed.

Lemma execute_select_timezone_rows (user_id : Z) (w w' : world)
      (rows : list string) :
  execute_select_timezone user_id w = (Returned rows, w') ->
  rows = select_timezone user_id (view w').
Proof.
  unfold execute_select_timezone, bind.
  destruct (send_statement w) as [[[]|e] w1]; now intros [= <- <-].
Qed.

(** C2: for a row whose timezone has a mapping, [fix_timezone] sends the
    update to the mapped name and then reads the row back; it returns
    [True] only when the value read back is that name, and when both
    statements are served but the row then holds another value (or the row
    is not there) it returns [False] with the message of line 111, the one
    of a failed verification, whoever changed the row in between. *)
Theorem fix_timezone_verifies_read_back (w : world) (user_id : Z)
        (old_timezone new_timezone : string) :
  lookup old_timezone TIMEZONE_MAPPING = Some new_timezone ->
  connection w = OpenConnection ->
  (forall w',
      fix_timezone TIMEZONE_MAPPING user_id old_timezone w
      = (Returned true, w') ->
      exists w1 w2,
        execute_update new_timezone user_id w = (Returned tt, w1) /\
        execute_select_timezone user_id w1
        = (Returned (select_timezone user_id (view w2)), w2) /\
        fetchone (select_timezone user_id (view w2)) = Some new_timezone) /\
  (forall w1 w2 rows,
      execute_update new_timezone user_id w = (Returned tt, w1) ->
      execute_select_timezone user_id w1 = (Returned rows, w2) ->
      rows = select_timezone user_id (view w2) /\
      (fetchone rows = Some new_timezone ->
       fix_timezone TIMEZONE_MAPPING user_id old_timezone w
       = (Returned true,
          set_console
            (console w2 ++ [UpdatedUser user_id old_timezone new_timezone])
            w2)) /\
      (fetchone rows <> Some new_timezone ->
       fix_timezone TIMEZONE_MAPPING user_id old_timezone w
       = (Returned false,
          set_console (console w2 ++ [FailedToUpdate user_id]) w2))).
Proof.
  intros Hl Hc.
  rewrite (fix_timezone_mapped _ _ _ _ _ Hl Hc). split.
  - intros w'.
    destruct (execute_update new_timezone user_id w) as [[[]|e] w1];
      [|destruct e; discriminate].
    destruct (execute_select_timezone user_id w1) as [[rows|e] w2] eqn:Hs;
      [|destruct e; discriminate].
    pose proof (execute_select_timezone_rows _ _ _ _ Hs) as Hrows.
    destruct (fetchone rows) as [tz|] eqn:Hf; [|discriminate].
    destruct (String.eqb_spec tz new_timezone) as [->|Hne]; [|discriminate].
    intros _. exists w1, w2. subst rows. simpl. auto.
  - intros w1 w2 rows Hu Hs. rewrite Hu, Hs.
    split; [exact (execute_select_timezone_rows _ _ _ _ Hs)|]. split.
    + intros ->. now rewrite String.eqb_refl.
    + intros Hne. destruct (fetchone rows) as [tz|]; [|reflexivity].
      destruct (String.eqb_spec tz new_timezone) as [->|_];
        [congruence | reflexivity].
Qed.

Lemma fix_timezone_verifies_read_back_witness :
  lookup "US/Central" TIMEZONE_MAPPING = Some "America/Chicago" /\
  connection reverting_session = OpenConnection /\
  fst (fix_timezone TIMEZONE_MAPPING 1 "US/Central" reverting_session)
  = Returned false /\
  console (snd (fix_timezone TIMEZONE_MAPPING 1 "US/Central" reverting_session))
  = [FailedToUpdate 1].
Proof.
  split; [reflexivity|]. split; [reflexivity|].
  pose proof (fix_timezone_verifies_read_back reverting_session 1 "US/Central"
                "America/Chicago" eq_refl eq_refl) as [_ H].
  destruct (H _ _ _ eq_refl eq_refl) as (_ & _ & Hfail).
  rewrite Hfail; [split; reflexivity|].
  vm_compute. discriminate.
Defined.

(** ** Database errors *)

Lemma send_statement_eq (w : world) :
  send_statement w
  = let w0 := set_script (tl (script w)) w in
    let w1 := match hd Proceed (script w) with
              | Intervene t => set_view t (set_store t w0)
              | _ => w0
              end in
    if txn_failed w then (Raised Psycopg2Error, w1)
    else match hd Proceed (script w) with
         | Throw x => if is_psycopg2_error x
                      then (Raised Psycopg2Error, set_txn_failed true w1)
                      else (Raised x, w1)
         | _ => (Returned tt, w1)
         end.
Proof.
  unfold send_statement, bind. rewrite next_event_eq.
  destruct (hd Proceed (script w)) as [|x|t]; simpl;
    destruct (txn_failed w); reflexivity.
Qed.

Lemma database_errors_only_tl (s : list event) :
  database_errors_only s -> database_errors_only (tl s).
Proof. intros H. destruct s; [exact H | now inversion H]. Qed.

Lemma database_errors_only_hd (s : list event) (x : exn) :
  database_errors_only s -> hd Proceed s = Throw x -> x = Psycopg2Error.
Proof.
  intros H Hhd. destruct s as [|e s]; [discriminate|]. simpl in Hhd. subst e.
  inversion H as [|? ? Hx _]. now destruct x.
Qed.

Lemma send_statement_alive (w : world) :
  alive w ->
  exists w', alive w' /\
             (send_statement w = (Returned tt, w') \/
              send_statement w = (Raised Psycopg2Error, w')).
Proof.
  intros [Hc Hs]. rewrite send_statement_eq. cbv zeta.
  assert (Ha : alive (set_script (tl (script w)) w))
    by (split; [exact Hc | now apply database_errors_only_tl]).
  destruct (hd Proceed (script w)) as [|x|t] eqn:Hhd.
  - destruct (txn_failed w); eauto.
  - rewrite (database_errors_only_hd _ _ Hs Hhd). simpl.
    destruct (txn_failed w); [eauto|].
    eexists. split; [|right; reflexivity]. exact Ha.
  - destruct (txn_failed w);
      (eexists; split; [|first [left; reflexivity | right; reflexivity]]);
      exact Ha.
Qed.









(** ** What one call of [fix_timezone] touches *)

Lemma undisturbed_tl (s : list event) : undisturbed s -> undisturbed (tl s).
Proof. intros H. destruct s; [exact H | now inversion H]. Qed.

Lemma undisturbed_hd (s : list event) (t : table) :
  undisturbed s -> hd Proceed s <> Intervene t.
Proof.
  intros H Hhd. destruct s as [|e s]; [discriminate|]. simpl in Hhd. subst e.
  now inversion H.
Qed.

(** A statement sent while no other client writes leaves the rows alone. *)
Lemma send_statement_undisturbed (w : world) :
  undisturbed (script w) ->
  undisturbed (script (snd (send_statement w))) /\
  view (snd (send_statement w)) = view w /\
  store (snd (send_statement w)) = store w /\
  autocommit (snd (send_statement w)) = autocommit w.
Proof.
  intros Hu. rewrite send_statement_eq. cbv zeta.
  pose proof (undisturbed_tl _ Hu) as Htl.
  destruct (hd Proceed (script w)) as [|x|t] eqn:Hhd.
  - destruct (txn_failed w); now repeat split.
  - destruct (txn_failed w); [|destruct (is_psycopg2_error x)];
      now repeat split.
  - now apply undisturbed_hd in Hhd.
Qed.

Lemma execute_update_undisturbed (new_timezone : string) (user_id : Z)
      (w : world) :
  undisturbed (script w) ->
  let w' := snd (execute_update new_timezone user_id w) in
  undisturbed (script w') /\
  autocommit w' = autocommit w /\
  (view w' = view w \/
   view w' = update_timezone new_timezone user_id (view w)) /\
  (autocommit w = false -> store w' = store w).
Proof.
  intros Hu. unfold execute_update, bind.
  destruct (send_statement_undisturbed w Hu) as (Hs & Hv & Hst & Hac).
  destruct (send_statement w) as [[[]|e] w1]; simpl in *.
  - destruct (autocommit w1) eqn:Hac1; simpl; rewrite ?Hv;
      repeat split; auto; congruence.
  - repeat split; auto.
Qed.

Lemma execute_select_timezone_undisturbed (user_id : Z) (w : world) :
  undisturbed (script w) ->
  let w' := snd (execute_select_timezone user_id w) in
  undisturbed (script w') /\ autocommit w' = autocommit w /\
  view w' = view w /\ store w' = store w.
Proof.
  intros Hu. unfold execute_select_timezone, bind.
  destruct (send_statement_undisturbed w Hu) as (Hs & Hv & Hst & Hac).
  destruct (send_statement w) as [[[]|e] w1]; simpl in *; auto.
Qed.

Lemma fix_timezone_unmapped (mapping : dict) (user_id : Z)
      (old_timezone : string) (w : world) :
  lookup old_timezone mapping = None ->
  fix_timezone mapping user_id old_timezone w
  = (Returned false,
     set_console (console w ++ [NoMappingFound old_timezone]) w).
Proof. intros Hl. unfold fix_timezone. now rewrite Hl. Qed.

(** The rows after one call, while no other client writes: as before, or
    with the one update applied; the committed rows stay as they are when
    the connection does not commit by itself. *)
Lemma fix_timezone_undisturbed (mapping : dict) (user_id : Z)
      (old_timezone : string) (w : world) :
  undisturbed (script w) ->
  let w' := snd (fix_timezone mapping user_id old_timezone w) in
  undisturbed (script w') /\
  autocommit w' = autocommit w /\
  (view w' = view w \/
   exists new_timezone,
     lookup old_timezone mapping = Some new_timezone /\
     view w' = update_timezone new_timezone user_id (view w)) /\
  (autocommit w = false -> store w' = store w).
Proof.
  intros Hu.
  destruct (lookup old_timezone mapping) as [new_timezone|] eqn:Hl;
    [|rewrite (fix_timezone_unmapped _ _ _ _ Hl); simpl; auto].
  destruct (connection w) eqn:Hc;
    try (unfold fix_timezone, bind, cursor; rewrite Hl, Hc; simpl; now auto).
  rewrite (fix_timezone_mapped _ _ _ _ _ Hl Hc).
  destruct (execute_update_undisturbed new_timezone user_id w Hu)
    as (Hu1 & Ha1 & Hv1 & Hs1).
  destruct (execute_update new_timezone user_id w) as [r1 w1]. simpl in *.
  destruct (execute_select_timezone_undisturbed user_id w1 Hu1)
    as (Hu2 & Ha2 & Hv2 & Hs2).
  assert (Hview : view w1 = view w \/
                  exists new_timezone0,
                    Some new_timezone = Some new_timezone0 /\
                    view w1 = update_timezone new_timezone0 user_id (view w))
    by (destruct Hv1; eauto).
  destruct r1 as [[]|e].
  - destruct (execute_select_timezone user_id w1) as [r2 w2]. simpl in *.
    rewrite <- Hv2 in Hview. rewrite <- Hs2 in Hs1. rewrite <- Ha2 in Ha1.
    destruct r2 as [rows|e];
      [destruct (fetchone rows) as [tz|];
       [destruct (String.eqb tz new_timezone)|] | destruct e];
      simpl; auto.
  - destruct e; simpl; auto.
Qed.

Lemma update_row_frame (new_timezone : string) (user_id : Z) (r : row) :
  same_but_timezone_of user_id r (update_row new_timezone user_id r).
Proof.
  unfold same_but_timezone_of, update_row.
  destruct (Z.eqb_spec (id r) user_id); simpl; repeat split; auto.
  congruence.
Qed.

Lemma update_timezone_frame (new_timezone : string) (user_id : Z) (t : table) :
  Forall2 (same_but_timezone_of user_id) t
          (update_timezone new_timezone user_id t).
Proof.
  induction t as [|r t IH]; simpl; constructor; auto using update_row_frame.
Qed.

Lemma same_but_timezone_refl (user_id : Z) (t : table) :
  Forall2 (same_but_timezone_of user_id) t t.
Proof.
  induction t as [|r t IH]; constructor; auto.
  unfold same_but_timezone_of. auto.
Qed.

(** C10: while no other client writes, one call of [fix_timezone] leaves
    every row in place with its identifier and its other columns, and
    leaves every row with another identifier exactly as it was; when the
    timezone has no mapping, the call returns [False] after the message of
    line 87 and nothing else has changed: no statement was sent. *)
Theorem fix_timezone_frame (w : world) (user_id : Z) (old_timezone : string) :
  undisturbed (script w) ->
  let w' := snd (fix_timezone TIMEZONE_MAPPING user_id old_timezone w) in
  Forall2 (same_but_timezone_of user_id) (view w) (view w') /\
  (autocommit w = false -> store w' = store w) /\
  (lookup old_timezone TIMEZONE_MAPPING = None ->
   fix_timezone TIMEZONE_MAPPING user_id old_timezone w
   = (Returned false,
      set_console (console w ++ [NoMappingFound old_timezone]) w)).
Proof.
  intros Hu w'.
  destruct (fix_timezone_undisturbed TIMEZONE_MAPPING user_id old_timezone
                                     w Hu) as (_ & _ & Hv & Hs).
  fold w' in Hv, Hs. split; [|split].
  - destruct Hv as [-> | (new_timezone & _ & ->)].
    + apply same_but_timezone_refl.
    + apply update_timezone_frame.
  - exact Hs.
  - apply fix_timezone_unmapped.
Qed.

Lemma fix_timezone_frame_witness :
  undisturbed (script (session two_users)) /\
  Forall2 (same_but_timezone_of 1) two_users
          [mkRow 1 "America/Chicago" ["deck 7"];
           mkRow 2 "US/Eastern" ["deck 9"]] /\
  store (snd (fix_timezone TIMEZONE_MAPPING 1 "US/Central" (session two_users)))
  = two_users.
Proof.
  assert (Hu : undisturbed (script (session two_users))) by constructor.
  split; [exact Hu|].
  destruct (fix_timezone_frame (session two_users) 1 "US/Central" Hu)
    as (Hview & Hstore & _).
  split; [exact Hview | exact (Hstore eq_refl)].
Defined.

(** ** Invariants of a run *)

Section Preservation.

Variable I : world -> Prop.

Lemma preserves_ret {A} (a : A) : preserves I (ret a).
Proof. intros w H. exact H. Qed.

Lemma preserves_bind {A B} (m : M A) (k : A -> M B) :
  preserves I m -> (forall a, preserves I (k a)) -> preserves I (bind m k).
Proof.
  intros Hm Hk w H. unfold bind. specialize (Hm w H).
  destruct (m w) as [[a|e] w1]; simpl in Hm; [now apply Hk | exact Hm].
Qed.

Lemma preserves_except_psycopg2 {A} (body handler : M A) :
  preserves I body -> preserves I handler ->
  preserves I (except_psycopg2 body handler).
Proof.
  intros Hb Hh w H. unfold except_psycopg2. specialize (Hb w H).
  destruct (body w) as [[a|[]] w1]; simpl in Hb; auto.
Qed.

Lemma preserves_except_Exception {A} (body : M A) (handler : exn -> M A) :
  preserves I body -> (forall e, preserves I (handler e)) ->
  preserves I (except_Exception body handler).
Proof.
  intros Hb Hh w H. unfold except_Exception. specialize (Hb w H).
  destruct (body w) as [[a|e] w1]; simpl in Hb; [exact Hb | now apply Hh].
Qed.

Lemma preserves_finally {A} (body : M A) (cleanup : M unit) :
  preserves I body -> preserves I cleanup ->
  preserves I (finally body cleanup).
Proof.
  intros Hb Hc w H. unfold finally. specialize (Hb w H).
  destruct (body w) as [r w1]. simpl in *. now apply Hc.
Qed.

(** What is asked of the calls that leave the process. *)
Hypothesis print_ok : forall m, preserves I (print m).
Hypothesis cursor_ok : preserves I cursor.
Hypothesis select_in_ok : forall ks, preserves I (execute_select_in ks).
Hypothesis update_ok : forall tz i, preserves I (execute_update tz i).
Hypothesis select_timezone_ok :
  forall i, preserves I (execute_select_timezone i).
Hypothesis select_date_ok : forall tz, preserves I (execute_select_date tz).
Hypothesis write_file_ok : forall d, preserves I (write_file d).

Variable mapping : dict.

Local Hint Resolve preserves_ret preserves_bind preserves_except_psycopg2
      preserves_except_Exception preserves_finally print_ok cursor_ok
      select_in_ok update_ok select_timezone_ok select_date_ok
      write_file_ok : keep.

Lemma preserves_cursor_close : preserves I cursor_close.
Proof. apply preserves_ret. Qed.

Lemma preserves_get_invalid_timezones :
  preserves I (get_invalid_timezones mapping).
Proof.
  unfold get_invalid_timezones.
  auto 10 using preserves_cursor_close with keep.
Qed.

Lemma preserves_fix_timezone (user_id : Z) (old_timezone : string) :
  preserves I (fix_timezone mapping user_id old_timezone).
Proof.
  unfold fix_timezone.
  destruct (lookup old_timezone mapping) as [new_timezone|];
    [|auto with keep].
  apply preserves_bind; [auto with keep|]. intros _.
  apply preserves_finally; [|apply preserves_cursor_close].
  apply preserves_except_psycopg2; [|auto with keep].
  apply preserves_bind; [auto with keep|]. intros _.
  apply preserves_bind; [auto with keep|]. intros rows.
  destruct (fetchone rows) as [tz|];
    [destruct (String.eqb tz new_timezone)|]; auto with keep.
Qed.

Lemma preserves_fix_loop (invalid_users : list (Z * string)) :
  forall f g, preserves I (fix_loop mapping invalid_users f g).
Proof.
  induction invalid_users as [|[user_id old_timezone] l IH]; intros f g.
  - apply preserves_ret.
  - cbn [fix_loop]. apply preserves_bind; [apply preserves_fix_timezone|].
    intros []; apply IH.
Qed.

Lemma preserves_fix_all_timezones : preserves I (fix_all_timezones mapping).
Proof.
  unfold fix_all_timezones.
  apply preserves_bind; [auto with keep|]. intros _.
  apply preserves_bind; [apply preserves_get_invalid_timezones|].
  intros [|u l]; [auto with keep|].
  apply preserves_bind; [auto with keep|]. intros _.
  apply preserves_fix_loop.
Qed.

Lemma preserves_test_timezone_query (tz : string) :
  preserves I (test_timezone_query tz).
Proof.
  unfold test_timezone_query.
  apply preserves_bind; [auto with keep|]. intros _.
  apply preserves_finally; [|apply preserves_cursor_close].
  apply preserves_except_psycopg2; [|auto with keep].
  apply preserves_bind; [auto with keep|]. intros rows.
  destruct (fetchone rows); auto with keep.
Qed.

Lemma preserves_generate_timezone_mapping_file :
  preserves I generate_timezone_mapping_file.
Proof. unfold generate_timezone_mapping_file. auto with keep. Qed.

Lemma preserves_main_body : preserves I (main_body mapping).
Proof.
  unfold main_body.
  repeat (apply preserves_bind;
          [first [ apply print_ok
                 | apply preserves_test_timezone_query
                 | apply preserves_fix_all_timezones
                 | apply preserves_generate_timezone_mapping_file ]
          | intros ? ]).
  apply print_ok.
Qed.

End Preservation.

(** The connection stays as it is through every call but [connect] and
    [disconnect]. *)
Lemma send_statement_connected : preserves connection_open send_statement.
Proof.
  intros w H. rewrite send_statement_eq. cbv zeta.
  destruct (hd Proceed (script w)) as [|x|t];
    destruct (txn_failed w); try exact H.
  destruct (is_psycopg2_error x); exact H.
Qed.

Lemma after_statement_connected {A} (k : M A) :
  preserves connection_open k ->
  preserves connection_open (send_statement ;; k).
Proof.
  intros Hk. apply preserves_bind; [apply send_statement_connected|].
  intros _. exact Hk.
Qed.

Lemma print_connected (m : msg) : preserves connection_open (print m).
Proof. intros w H. exact H. Qed.

Lemma cursor_connected : preserves connection_open cursor.
Proof. intros w H. unfold cursor. now rewrite H. Qed.

Lemma execute_select_in_connected (ks : list string) :
  preserves connection_open (execute_select_in ks).
Proof.
  apply after_statement_connected. destruct ks; intros w H; exact H.
Qed.

Lemma execute_update_connected (tz : string) (i : Z) :
  preserves connection_open (execute_update tz i).
Proof.
  apply after_statement_connected. intros w H. simpl.
  destruct (autocommit w); exact H.
Qed.

Lemma execute_select_timezone_connected (i : Z) :
  preserves connection_open (execute_select_timezone i).
Proof. apply after_statement_connected. intros w H. exact H. Qed.

Lemma execute_select_date_connected (tz : string) :
  preserves connection_open (execute_select_date tz).
Proof. apply after_statement_connected. intros w H. exact H. Qed.

Lemma write_file_connected (d : dict) :
  preserves connection_open (write_file d).
Proof.
  intros w H. unfold write_file, bind. rewrite next_event_eq.
  destruct (hd Proceed (script w)) as [|x|t]; exact H.
Qed.

Lemma main_body_connected (mapping : dict) :
  preserves connection_open (main_body mapping).
Proof.
  apply preserves_main_body;
    auto using print_connected, cursor_connected, execute_select_in_connected,
      execute_update_connected, execute_select_timezone_connected,
      execute_select_date_connected, write_file_connected.
Qed.

(** While no other client writes and the connection does not commit
    by itself, the committed rows stay as they are. *)
Lemma send_statement_uncommitted (t : table) :
  preserves (uncommitted t) send_statement.
Proof.
  intros w (Hs & Ha & Hu).
  destruct (send_statement_undisturbed w Hu) as (Hu' & _ & Hs' & Ha').
  repeat split; congruence.
Qed.

Lemma print_uncommitted (t : table) (m : msg) :
  preserves (uncommitted t) (print m).
Proof. intros w H. exact H. Qed.

Lemma cursor_uncommitted (t : table) : preserves (uncommitted t) cursor.
Proof. intros w H. unfold cursor. destruct (connection w); exact H. Qed.

Lemma execute_select_in_uncommitted (t : table) (ks : list string) :
  preserves (uncommitted t) (execute_select_in ks).
Proof.
  apply preserves_bind; [apply send_statement_uncommitted|].
  intros _. destruct ks; intros w H; exact H.
Qed.

Lemma execute_update_uncommitted (t : table) (tz : string) (i : Z) :
  preserves (uncommitted t) (execute_update tz i).
Proof.
  intros w (Hs & Ha & Hu).
  destruct (execute_update_undisturbed tz i w Hu) as (Hu' & Ha' & _ & Hs').
  repeat split; [rewrite Hs'; auto | congruence | exact Hu'].
Qed.

Lemma execute_select_timezone_uncommitted (t : table) (i : Z) :
  preserves (uncommitted t) (execute_select_timezone i).
Proof.
  apply preserves_bind; [apply send_statement_uncommitted|].
  intros _ w H. exact H.
Qed.

Lemma execute_select_date_uncommitted (t : table) (tz : string) :
  preserves (uncommitted t) (execute_select_date tz).
Proof.
  apply preserves_bind; [apply send_statement_uncommitted|].
  intros _ w H. exact H.
Qed.

Lemma write_file_uncommitted (t : table) (d : dict) :
  preserves (uncommitted t) (write_file d).
Proof.
  intros w (Hs & Ha & Hu). unfold write_file, bind. rewrite next_event_eq.
  pose proof (undisturbed_tl _ Hu) as Htl.
  destruct (hd Proceed (script w)) as [|x|t'] eqn:Hhd.
  - now repeat split.
  - now repeat split.
  - now apply undisturbed_hd in Hhd.
Qed.

Lemma main_body_uncommitted (mapping : dict) (t : table) :
  preserves (uncommitted t) (main_body mapping).
Proof.
  apply preserves_main_body;
    auto using print_uncommitted, cursor_uncommitted,
      execute_select_in_uncommitted, execute_update_uncommitted,
      execute_select_timezone_uncommitted, execute_select_date_uncommitted,
      write_file_uncommitted.
Qed.

(** ** The whole run *)

Lemma connect_true (w w1 : world) :
  connect w = (Returned true, w1) ->
  connection_open w1 /\ autocommit w1 = false /\
  script w1 = tl (script w) /\
  (undisturbed (script w) -> store w1 = store w).
Proof.
  unfold connect, except_psycopg2, psycopg2_connect, bind.
  rewrite next_event_eq.
  destruct (hd Proceed (script w)) as [|x|t] eqn:Hhd; simpl.
  - intros [= <-]. now repeat split.
  - destruct x; discriminate.
  - intros [= <-]. repeat split.
    intros Hu. now apply undisturbed_hd in Hhd.
Qed.

Lemma main_after_connect (mapping : dict) (w w1 : world) :
  connect (snd ((print Banner ;; print Rule) w)) = (Returned true, w1) ->
  main mapping w
  = finally
      (except_Exception (main_body mapping ;; ret 0)
                        (fun e => print (ErrorReport e) ;; ret 1))
      disconnect w1.
Proof.
  intros H. unfold main.
  rewrite (bind_returned _ _ _ _ _ (print_eq Banner w)).
  rewrite (bind_returned _ _ _ _ _ (print_eq Rule _)).
  simpl in H. now rewrite (bind_returned _ _ _ _ _ H).
Qed.

Lemma disconnect_connected (w : world) :
  connection_open w ->
  disconnect w
  = (Returned tt,
     set_console (console w ++ [ConnectionClosed])
                 (set_view (store w) (set_connection ClosedConnection w))).
Proof. intros H. unfold disconnect. now rewrite H. Qed.

(** C8: once connected, when a step of the body of [main] raises, the
    error is printed, the connection is closed and the process ends with
    status 1; when the body runs to its end the connection is closed and
    the status is 0.  The closing is the last thing printed either way. *)
Theorem main_exit_and_disconnect (w w1 : world) :
  connect (snd ((print Banner ;; print Rule) w)) = (Returned true, w1) ->
  (forall e wb,
      main_body TIMEZONE_MAPPING w1 = (Raised e, wb) ->
      exit_code (fst (main TIMEZONE_MAPPING w)) = 1 /\
      connection (snd (main TIMEZONE_MAPPING w)) = ClosedConnection /\
      console (snd (main TIMEZONE_MAPPING w))
      = (console wb ++ [ErrorReport e; ConnectionClosed])%list) /\
  (forall wb,
      main_body TIMEZONE_MAPPING w1 = (Returned tt, wb) ->
      exit_code (fst (main TIMEZONE_MAPPING w)) = 0 /\
      connection (snd (main TIMEZONE_MAPPING w)) = ClosedConnection /\
      console (snd (main TIMEZONE_MAPPING w))
      = (console wb ++ [ConnectionClosed])%list).
Proof.
  intros Hconn. rewrite (main_after_connect _ _ _ Hconn).
  destruct (connect_true _ _ Hconn) as (Hc1 & _).
  pose proof (main_body_connected TIMEZONE_MAPPING w1 Hc1) as Hcb.
  unfold finally, except_Exception, bind. split.
  - intros e wb Hb. rewrite Hb in *. simpl in Hcb. simpl.
    rewrite disconnect_connected by exact Hcb. simpl.
    rewrite <- app_assoc. auto.
  - intros wb Hb. rewrite Hb in *. simpl in Hcb. simpl.
    rewrite disconnect_connected by exact Hcb. auto.
Qed.

Lemma main_exit_and_disconnect_witness :
  exit_code (fst (main TIMEZONE_MAPPING unwritable_artifact_run)) = 1 /\
  connection (snd (main TIMEZONE_MAPPING unwritable_artifact_run))
  = ClosedConnection /\
  exit_code (fst (main TIMEZONE_MAPPING (start example_table []))) = 0 /\
  connection (snd (main TIMEZONE_MAPPING (start example_table [])))
  = ClosedConnection.
Proof.
  pose (w1 := snd (connect (snd ((print Banner ;; print Rule)
                                   unwritable_artifact_run)))).
  assert (Hc1 : connect (snd ((print Banner ;; print Rule)
                                unwritable_artifact_run))
                = (Returned true, w1)) by (vm_compute; reflexivity).
  assert (Hb1 : main_body TIMEZONE_MAPPING w1
                = (Raised OSError, snd (main_body TIMEZONE_MAPPING w1)))
    by (vm_compute; reflexivity).
  destruct (proj1 (main_exit_and_disconnect _ _ Hc1) _ _ Hb1)
    as (Hcode1 & Hclosed1 & _).
  pose (w2 := snd (connect (snd ((print Banner ;; print Rule)
                                   (start example_table []))))).
  assert (Hc2 : connect (snd ((print Banner ;; print Rule)
                                (start example_table [])))
                = (Returned true, w2)) by (vm_compute; reflexivity).
  assert (Hb2 : main_body TIMEZONE_MAPPING w2
                = (Returned tt, snd (main_body TIMEZONE_MAPPING w2)))
    by (vm_compute; reflexivity).
  destruct (proj2 (main_exit_and_disconnect _ _ Hc2) _ Hb2)
    as (Hcode2 & Hclosed2 & _).
  repeat split; assumption.
Defined.

Lemma connect_store (w : world) :
  undisturbed (script w) ->
  store (snd (connect w)) = store w /\
  undisturbed (script (snd (connect w))).
Proof.
  intros Hu. unfold connect, except_psycopg2, psycopg2_connect, bind.
  rewrite next_event_eq. pose proof (undisturbed_tl _ Hu) as Htl.
  destruct (hd Proceed (script w)) as [|x|t] eqn:Hhd; simpl.
  - now split.
  - destruct x; now split.
  - now apply undisturbed_hd in Hhd.
Qed.

Lemma disconnect_uncommitted (t : table) : preserves (uncommitted t) disconnect.
Proof.
  intros w H. unfold disconnect. destruct (connection w); exact H.
Qed.

(** C1: no run commits anything.  [connect] leaves the connection out of
    autocommit, nothing in the script commits, and closing the connection
    discards what the transaction has done: while no other client writes,
    the committed rows after [main] are the rows before it, whatever was
    printed as fixed, also when the writing of the mapping file has
    failed. *)
Theorem main_never_commits (t : table) (s : list event) :
  undisturbed s ->
  store (snd (main TIMEZONE_MAPPING (start t s))) = t.
Proof.
  intros Hu. unfold main.
  rewrite (bind_returned _ _ _ _ _ (print_eq Banner _)).
  rewrite (bind_returned _ _ _ _ _ (print_eq Rule _)).
  set (w0 := set_console _ _).
  assert (Hu0 : undisturbed (script w0)) by exact Hu.
  destruct (connect_store w0 Hu0) as [Hstore Hscript].
  unfold bind at 1.
  destruct (connect w0) as [[[]|e] w1] eqn:Hc; simpl in Hstore, Hscript;
    try exact Hstore.
  destruct (connect_true _ _ Hc) as (_ & Hac & _ & _).
  assert (H1 : uncommitted t w1) by (repeat split; assumption).
  cbn [negb].
  match goal with
  | |- store (snd (?m w1)) = t => assert (Hp : preserves (uncommitted t) m)
  end.
  { apply preserves_finally; [|apply disconnect_uncommitted].
    apply preserves_except_Exception.
    - apply preserves_bind; [apply main_body_uncommitted|].
      intros _. apply preserves_ret.
    - intros e. apply preserves_bind; [apply print_uncommitted|].
      intros _. apply preserves_ret. }
  apply (Hp w1 H1).
Qed.

Lemma main_never_commits_witness :
  undisturbed (script unwritable_artifact_run) /\
  exit_code (fst (main TIMEZONE_MAPPING unwritable_artifact_run)) = 1 /\
  In (UpdatedUser 1 "US/Central" "America/Chicago")
     (console (snd (main TIMEZONE_MAPPING unwritable_artifact_run))) /\
  In (FixedCount 1)
     (console (snd (main TIMEZONE_MAPPING unwritable_artifact_run))) /\
  store (snd (main TIMEZONE_MAPPING unwritable_artifact_run)) = example_table.
Proof.
  assert (Hu : undisturbed (script unwritable_artifact_run))
    by (repeat constructor).
  split; [exact Hu|].
  split; [vm_compute; reflexivity|].
  split; [vm_compute; tauto|].
  split; [vm_compute; tauto|].
  exact (main_never_commits example_table _ Hu).
Defined.

(** ** A probe that fails *)

(** The handler of [test_timezone_query] does its part: with an open
    connection, a database error at the probe's statement is printed and
    the call returns. *)
Lemma test_timezone_query_alive (tz : string) (w : world) :
  alive w ->
  exists b w', test_timezone_query tz w = (Returned b, w') /\ alive w'.
Proof.
  intros Ha. unfold test_timezone_query.
  rewrite (bind_returned _ _ _ _ _ (cursor_open w (proj1 Ha))).
  unfold finally, except_psycopg2, execute_select_date, bind.
  destruct (send_statement_alive w Ha) as (w1 & Ha1 & [-> | ->]);
    simpl; eauto.
Qed.

(** C7: when the server turns the first probe down, the error is caught
    and printed, and so is that of the second probe; the transaction is
    then in its failed state, the scan of [fix_all_timezones] raises, and
    the run ends there with status 1: no row is looked at, no mapping file
    is written, the last probe does not take place. *)
Theorem failed_probe_ends_the_run (t : table) (s : list event) :
  let run := main TIMEZONE_MAPPING
                  (start t (Proceed :: Throw Psycopg2Error :: s)) in
  exit_code (fst run) = 1 /\
  artifact (snd run) = None /\
  console (snd run)
  = [ Banner; Rule; Connected; TestingCompatibility;
      TimezoneError "US/Central"; TimezoneError "America/Chicago";
      FixingInvalid; Scanning; ErrorReport Psycopg2Error; ConnectionClosed ].
Proof.
  destruct s as [|[|x2|t2] [|[|x3|t3] s]]; cbv; auto.
Qed.

(** * Further properties of the script *)

(** ** A connection that cannot be made *)

(** X1: when [psycopg2.connect] raises, [main] ends with status 1 and has
    done nothing else: no connection is held, so [disconnect] is not called
    and nothing is closed, no statement is sent, no file is written.  A
    database error is printed by [connect] as a failure to connect; any
    other exception leaves [main] unreported. *)
Theorem main_without_connection (t : table) (s : list event) (e : exn) :
  let run := main TIMEZONE_MAPPING (start t (Throw e :: s)) in
  exit_code (fst run) = 1 /\
  connection (snd run) = NoConnection /\
  script (snd run) = s /\
  store (snd run) = t /\
  artifact (snd run) = None /\
  console (snd run)
  = if is_psycopg2_error e then [Banner; Rule; FailedToConnect]
    else [Banner; Rule].
Proof. destruct e; cbv; auto 10. Qed.

(** ** The mapping as a function *)

(** X2: normalising twice is normalising once: what the generated
    [normalize_timezone] returns is a name it leaves as it is. *)
Theorem normalize_timezone_idempotent (s : string) :
  TimezoneMapping.normalize_timezone (TimezoneMapping.normalize_timezone s)
  = TimezoneMapping.normalize_timezone s.
Proof.
  unfold TimezoneMapping.normalize_timezone, TimezoneMapping.Map_get.
  change TimezoneMapping.timezone_mapping with TIMEZONE_MAPPING.
  destruct (lookup s TIMEZONE_MAPPING) as [v|] eqn:Hs; [|now rewrite Hs].
  destruct (lookup v TIMEZONE_MAPPING) as [v'|] eqn:Hv; [|reflexivity].
  pose proof (canonical_not_legacy _ _ Hs) as Hnot.
  assert (Hyes : mem v (keys TIMEZONE_MAPPING) = true)
    by (apply lookup_mem; eauto).
  congruence.
Qed.

(** ** One row, every statement served *)

Lemma fetchone_after_update (new_timezone : string) (user_id : Z) (t : table) :
  fetchone (select_timezone user_id (update_timezone new_timezone user_id t))
  = if has_id user_id t then Some new_timezone else None.
Proof.
  unfold has_id, select_timezone, update_timezone, fetchone.
  induction t as [|r t IH]; [reflexivity|]. simpl.
  destruct (update_row_frame new_timezone user_id r) as (Hid' & _ & _).
  rewrite Hid'. destruct (Z.eqb (id r) user_id) eqn:Hid; simpl.
  - unfold update_row. now rewrite Hid.
  - exact IH.
Qed.

Lemma update_timezone_absent (new_timezone : string) (user_id : Z) (t : table) :
  has_id user_id t = false -> update_timezone new_timezone user_id t = t.
Proof.
  unfold has_id, update_timezone. induction t as [|r t IH]; [reflexivity|].
  simpl. intros H. apply orb_false_iff in H as [Hr Ht].
  unfold update_row at 1. rewrite Hr. f_equal. now apply IH.
Qed.

Lemma fix_timezone_ready_result (mapping : dict) (user_id : Z)
      (old_timezone new_timezone : string) (w : world) :
  ready w ->
  lookup old_timezone mapping = Some new_timezone ->
  exists w',
    fix_timezone mapping user_id old_timezone w
    = (Returned (has_id user_id (view w)), w') /\
    ready w' /\
    view w' = update_timezone new_timezone user_id (view w) /\
    console w'
    = (console w
       ++ [if has_id user_id (view w)
           then UpdatedUser user_id old_timezone new_timezone
           else FailedToUpdate user_id])%list.
Proof.
  intros Hr Hl.
  rewrite (fix_timezone_mapped _ _ _ _ _ Hl (proj1 Hr)).
  destruct (execute_update_ready new_timezone user_id w Hr)
    as (w1 & Hu & Hr1 & Hv1).
  destruct (execute_select_timezone_ready user_id w1 Hr1)
    as (w2 & Hs & Hr2 & Hv2).
  rewrite Hu, Hs, Hv1, fetchone_after_update.
  assert (Hc : console w2 = console w).
  { unfold execute_update in Hu. unfold execute_select_timezone in Hs.
    rewrite (bind_returned _ _ _ _ _ (send_statement_ready w Hr)) in Hu.
    rewrite (bind_returned _ _ _ _ _ (send_statement_ready w1 Hr1)) in Hs.
    injection Hs as <-. injection Hu as <-.
    destruct (autocommit _); reflexivity. }
  destruct (has_id user_id (view w)).
  - rewrite String.eqb_refl. eexists. split; [reflexivity|].
    split; [exact Hr2|]. simpl. split; congruence.
  - eexists. split; [reflexivity|].
    split; [exact Hr2|]. simpl. split; congruence.
Qed.

(** X3: with every statement served, [fix_timezone] on a mapped name
    returns [True] exactly when some row has the identifier; the rows with
    that identifier then hold the mapped name whatever they held before
    (what the row holds is never compared with [old_timezone]).  When no
    row has the identifier it returns [False] after the message of line
    111 and the table is as it was. *)
Theorem fix_timezone_overwrites_the_row (w : world) (user_id : Z)
        (old_timezone new_timezone : string) :
  ready w ->
  lookup old_timezone TIMEZONE_MAPPING = Some new_timezone ->
  exists w',
    fix_timezone TIMEZONE_MAPPING user_id old_timezone w
    = (Returned (has_id user_id (view w)), w') /\
    view w' = update_timezone new_timezone user_id (view w) /\
    (has_id user_id (view w) = false -> view w' = view w) /\
    console w'
    = (console w
       ++ [if has_id user_id (view w)
           then UpdatedUser user_id old_timezone new_timezone
           else FailedToUpdate user_id])%list.
Proof.
  intros Hr Hl.
  destruct (fix_timezone_ready_result _ user_id _ _ w Hr Hl)
    as (w' & Hfix & _ & Hv & Hc).
  exists w'. split; [exact Hfix|]. split; [exact Hv|]. split; [|exact Hc].
  intros Hno. rewrite Hv. now apply update_timezone_absent.
Qed.

Lemma fix_timezone_overwrites_the_row_witness :
  ready (session two_users) /\
  lookup "US/Pacific" TIMEZONE_MAPPING = Some "America/Los_Angeles" /\
  (exists w',
      fix_timezone TIMEZONE_MAPPING 2 "US/Pacific" (session two_users)
      = (Returned true, w') /\
      view w' = [mkRow 1 "US/Central" ["deck 7"];
                 mkRow 2 "America/Los_Angeles" ["deck 9"]]) /\
  (exists w',
      fix_timezone TIMEZONE_MAPPING 5 "US/Pacific" (session two_users)
      = (Returned false, w') /\
      console w' = [FailedToUpdate 5]).
Proof.
  assert (Hr : ready (session two_users)) by apply ready_session.
  split; [exact Hr|]. split; [reflexivity|]. split.
  - destruct (fix_timezone_overwrites_the_row
                (session two_users) 2 "US/Pacific" "America/Los_Angeles"
                Hr eq_refl) as (w' & Hfix & Hv & _).
    exists w'. split; [exact Hfix | exact Hv].
  - destruct (fix_timezone_overwrites_the_row
                (session two_users) 5 "US/Pacific" "America/Los_Angeles"
                Hr eq_refl) as (w' & Hfix & _ & _ & Hc).
    exists w'. split; [exact Hfix | exact Hc].
Defined.

(** ** The whole table, every statement served *)

Lemma has_id_update (new_timezone : string) (i user_id : Z) (t : table) :
  has_id user_id (update_timezone new_timezone i t) = has_id user_id t.
Proof.
  unfold has_id, update_timezone. induction t as [|r t IH]; [reflexivity|].
  simpl. rewrite IH.
  destruct (update_row_frame new_timezone i r) as (-> & _ & _). reflexivity.
Qed.

Lemma has_id_scanned (ks : list string) (t : table) (u : Z * string) :
  In u (select_legacy ks t) -> has_id (fst u) t = true.
Proof.
  intros Hu. apply select_legacy_keys in Hu as (r & Hin & Hid & _).
  unfold has_id. apply existsb_exists. exists r. split; [exact Hin|].
  now apply Z.eqb_eq.
Qed.

Lemma fix_loop_all_fixed (mapping : dict) (l : list (Z * string)) :
  forall (f g : nat) (w : world),
    ready w ->
    (forall u, In u l -> mem (snd u) (keys mapping) = true) ->
    (forall u, In u l -> has_id (fst u) (view w) = true) ->
    exists w' msgs,
      fix_loop mapping l f g w
      = (Returned (mkReport (f + List.length l) g), w') /\
      ready w' /\
      view w' = map (fix_row mapping l) (view w) /\
      console w' = (console w ++ msgs)%list /\
      artifact w' = artifact w.
Proof.
  induction l as [|[user_id old_timezone] l IH]; intros f g w Hr Hkeys Hids.
  - exists w, []. simpl. rewrite map_id, app_nil_r, Nat.add_0_r. auto.
  - destruct (proj1 (lookup_mem old_timezone mapping)) as [new_timezone Hl].
    { apply (Hkeys (user_id, old_timezone)). now left. }
    destruct (fix_timezone_ready_result mapping user_id old_timezone
                                        new_timezone w Hr Hl)
      as (w1 & Hfix & Hr1 & Hv1 & Hc1).
    assert (Ha1 : artifact w1 = artifact w).
    { pose proof (fix_timezone_mapped _ user_id _ _ w Hl (proj1 Hr)) as Heq.
      destruct (execute_update_ready new_timezone user_id w Hr)
        as (wa & Hu & Hra & _).
      destruct (execute_select_timezone_ready user_id wa Hra)
        as (wb & Hs & _ & _).
      rewrite Hu, Hs in Heq.
      assert (Hab : artifact wb = artifact w).
      { unfold execute_update in Hu. unfold execute_select_timezone in Hs.
        rewrite (bind_returned _ _ _ _ _ (send_statement_ready w Hr)) in Hu.
        rewrite (bind_returned _ _ _ _ _ (send_statement_ready wa Hra)) in Hs.
        injection Hs as <-. injection Hu as <-.
        destruct (autocommit _); reflexivity. }
      rewrite Hfix in Heq.
      destruct (fetchone _) as [tz|];
        [destruct (String.eqb tz new_timezone)|];
        injection Heq as _ ->; exact Hab. }
    pose proof (Hids (user_id, old_timezone) (or_introl eq_refl)) as Hid.
    simpl in Hid. rewrite Hid in Hfix, Hc1.
    cbn [fix_loop]. rewrite (bind_returned _ _ _ _ _ Hfix).
    destruct (IH (S f) g w1 Hr1) as (w' & msgs & Hloop & Hr' & Hv' & Hc' & Ha').
    { intros u Hu. apply Hkeys. now right. }
    { intros u Hu. rewrite Hv1, has_id_update. apply Hids. now right. }
    exists w', (UpdatedUser user_id old_timezone new_timezone :: msgs).
    split; [rewrite Hloop; do 3 f_equal; simpl; lia|].
    split; [exact Hr'|]. split; [|split].
    + rewrite Hv', Hv1. unfold update_timezone. rewrite map_map.
      apply map_ext. intros r. symmetry. now apply fix_row_cons.
    + rewrite Hc', Hc1, <- app_assoc. reflexivity.
    + congruence.
Qed.

Lemma fix_all_timezones_all_fixed (mapping : dict) (w : world) :
  ready w ->
  mapping <> [] ->
  exists w' msgs,
    fix_all_timezones mapping w
    = (Returned
         (mkReport (List.length (select_legacy (keys mapping) (view w))) 0),
       w') /\
    ready w' /\
    view w'
    = map (fix_row mapping (select_legacy (keys mapping) (view w))) (view w) /\
    console w' = (console w ++ Scanning :: msgs)%list /\
    artifact w' = artifact w.
Proof.
  intros Hr Hne. unfold fix_all_timezones.
  rewrite (bind_returned _ _ _ _ _ (print_eq Scanning w)).
  assert (Hscan : exists w1,
             get_invalid_timezones mapping
                                   (set_console (console w ++ [Scanning]) w)
             = (Returned (select_legacy (keys mapping) (view w)), w1) /\
             ready w1 /\ view w1 = view w /\
             console w1 = (console w ++ [Scanning])%list /\
             artifact w1 = artifact w).
  { assert (Hr0 : ready (set_console (console w ++ [Scanning]) w))
      by exact Hr.
    unfold get_invalid_timezones, execute_select_in.
    rewrite (bind_returned _ _ _ _ _ (cursor_open _ (proj1 Hr0))).
    destruct mapping as [|kv mapping]; [congruence|]. simpl keys.
    unfold bind at 1.
    rewrite (bind_returned _ _ _ _ _ (send_statement_ready _ Hr0)).
    eexists. split; [reflexivity|].
    split; [now apply ready_next|]. auto. }
  destruct Hscan as (w1 & Hscan & Hr1 & Hv1 & Hc1 & Ha1).
  rewrite (bind_returned _ _ _ _ _ Hscan).
  destruct (select_legacy (keys mapping) (view w)) as [|u l] eqn:Hsel.
  - eexists. exists [NoInvalidTimezones]. split; [reflexivity|].
    split; [exact Hr1|]. simpl. rewrite map_id, Hc1, <- app_assoc. auto.
  - rewrite (bind_returned _ _ _ _ _ (print_eq _ w1)).
    destruct (fix_loop_all_fixed mapping (u :: l) 0 0
                (set_console
                   (console w1 ++ [FoundUsers (List.length (u :: l))]) w1))
      as (w' & msgs & Hloop & Hr' & Hv' & Hc' & Ha').
    + exact Hr1.
    + intros u' Hu'. rewrite <- Hsel in Hu'.
      apply select_legacy_keys in Hu' as (_ & _ & _ & _ & Hk).
      now apply mem_In.
    + intros u' Hu'. simpl view. rewrite Hv1. rewrite <- Hsel in Hu'.
      exact (has_id_scanned _ _ _ Hu').
    + exists w', (FoundUsers (List.length (u :: l)) :: msgs).
      split; [exact Hloop|]. split; [exact Hr'|]. split; [|split].
      * rewrite Hv'. simpl view. now rewrite Hv1.
      * rewrite Hc'. simpl console. rewrite Hc1, <- !app_assoc. reflexivity.
      * simpl in Ha'. congruence.
Qed.

(** X4: with every statement served, [fix_all_timezones] fixes every row
    the scan finds: the report counts as fixed the rows that held a key of
    the mapping and counts none as failed, and afterwards no row of the
    table holds a key, the table having as many rows as before. *)
Theorem fix_all_timezones_fixes_every_legacy_row (w : world) :
  ready w ->
  exists w',
    fix_all_timezones TIMEZONE_MAPPING w
    = (Returned
         (mkReport
            (List.length (select_legacy (keys TIMEZONE_MAPPING) (view w))) 0),
       w') /\
    (forall r', In r' (view w') ->
                mem (timezone r') (keys TIMEZONE_MAPPING) = false) /\
    List.length (view w') = List.length (view w).
Proof.
  intros Hr.
  destruct (fix_all_timezones_all_fixed _ w Hr TIMEZONE_MAPPING_nonempty)
    as (w' & msgs & Hrun & _ & Hv & _).
  exists w'. split; [exact Hrun|]. split.
  - intros r' Hin. rewrite Hv in Hin.
    apply in_map_iff in Hin as (r & <- & Hin).
    apply fix_row_settled.
    + intros u Hu. apply select_legacy_keys in Hu as (_ & _ & _ & _ & Hk).
      now apply mem_In.
    + destruct (mem (timezone r) (keys TIMEZONE_MAPPING)) eqn:Hm; [|now left].
      right. exists (timezone r).
      apply (select_legacy_keys _ _ (id r, timezone r)).
      exists r. repeat split; auto. now apply mem_In.
  - rewrite Hv. apply length_map.
Qed.

Lemma fix_all_timezones_fixes_every_legacy_row_witness :
  ready (session two_users) /\
  exists w',
    fix_all_timezones TIMEZONE_MAPPING (session two_users)
    = (Returned (mkReport 2 0), w') /\
    (forall r', In r' (view w') ->
                mem (timezone r') (keys TIMEZONE_MAPPING) = false).
Proof.
  assert (Hr : ready (session two_users)) by apply ready_session.
  split; [exact Hr|].
  destruct (fix_all_timezones_fixes_every_legacy_row _ Hr)
    as (w' & Hrun & Hnone & _).
  exists w'. split; [exact Hrun | exact Hnone].
Defined.

Lemma normalize_timezone_mapped (k v : string) :
  lookup k TIMEZONE_MAPPING = Some v ->
  TimezoneMapping.normalize_timezone k = v.
Proof.
  intros H. unfold TimezoneMapping.normalize_timezone, TimezoneMapping.Map_get.
  change TimezoneMapping.timezone_mapping with TIMEZONE_MAPPING.
  now rewrite H.
Qed.

Lemma normalize_row_canonical (r : row) :
  mem (timezone r) (keys TIMEZONE_MAPPING) = false -> normalize_row r = r.
Proof.
  intros Hm. unfold normalize_row, TimezoneMapping.normalize_timezone,
               TimezoneMapping.Map_get.
  change TimezoneMapping.timezone_mapping with TIMEZONE_MAPPING.
  destruct (lookup (timezone r) TIMEZONE_MAPPING) as [v|] eqn:Hl.
  - assert (mem (timezone r) (keys TIMEZONE_MAPPING) = true)
      by (apply lookup_mem; eauto).
    congruence.
  - now destruct r.
Qed.

Lemma fix_row_elsewhere (mapping : dict) (l : list (Z * string)) :
  forall r, (forall u, In u l -> fst u <> id r) -> fix_row mapping l r = r.
Proof.
  induction l as [|u l IH]; intros r Hl; [reflexivity|].
  unfold fix_row in *. simpl.
  assert (Hu : match lookup (snd u) mapping with
               | Some new_timezone => update_row new_timezone (fst u) r
               | None => r
               end = r).
  { destruct (lookup (snd u) mapping); [|reflexivity].
    unfold update_row. destruct (Z.eqb_spec (id r) (fst u)) as [Heq|];
      [|reflexivity].
    exfalso. apply (Hl u); [now left | congruence]. }
  rewrite Hu. apply IH. intros u' Hu'. apply Hl. now right.
Qed.

(** With one entry at most for each identifier, the loop makes of a row
    what [normalize_timezone] makes of it, or leaves it. *)
Lemma fix_row_unique (l : list (Z * string)) :
  forall r,
    NoDup (map fst l) ->
    (forall u, In u l -> fst u = id r -> snd u = timezone r) ->
    (forall u, In u l -> mem (snd u) (keys TIMEZONE_MAPPING) = true) ->
    fix_row TIMEZONE_MAPPING l r
    = if existsb (fun u => Z.eqb (fst u) (id r)) l then normalize_row r
      else r.
Proof.
  induction l as [|u l IH]; intros r Hnd Hsame Hkeys; [reflexivity|].
  destruct (proj1 (lookup_mem (snd u) TIMEZONE_MAPPING)) as [new_timezone Hl].
  { apply Hkeys. now left. }
  rewrite (fix_row_cons _ _ _ _ _ Hl). simpl existsb.
  inversion Hnd as [|? ? Hnotin Hnd']; subst.
  unfold update_row. destruct (Z.eqb_spec (id r) (fst u)) as [Heq|Hne].
  - rewrite <- Heq, Z.eqb_refl. simpl.
    assert (Htz : snd u = timezone r) by (apply Hsame; [now left | auto]).
    rewrite Htz in Hl.
    assert (Hrow : mkRow (id r) new_timezone (other_columns r)
                   = normalize_row r)
      by (unfold normalize_row; now rewrite (normalize_timezone_mapped _ _ Hl)).
    rewrite Hrow. apply fix_row_elsewhere. intros u' Hu' Hfst.
    apply Hnotin. apply in_map_iff. exists u'. split; [|exact Hu'].
    simpl in Hfst. congruence.
  - assert (Hno : Z.eqb (fst u) (id r) = false)
      by (apply Z.eqb_neq; congruence).
    rewrite Hno. simpl. apply IH; auto.
    + intros u' Hu'. apply Hsame. now right.
    + intros u' Hu'. apply Hkeys. now right.
Qed.

Lemma scanned_ids (ks : list string) (t : table) (i : Z) :
  In i (map fst (select_legacy ks t)) -> In i (map id t).
Proof.
  intros H. apply in_map_iff in H as (u & <- & Hu).
  apply select_legacy_keys in Hu as (r & Hin & Hid & _).
  apply in_map_iff. eauto.
Qed.

Lemma scanned_ids_unique (ks : list string) (t : table) :
  NoDup (map id t) -> NoDup (map fst (select_legacy ks t)).
Proof.
  unfold select_legacy. induction t as [|r t IH]; intros Hnd; [constructor|].
  inversion Hnd as [|? ? Hnotin Hnd']; subst. simpl.
  destruct (mem (timezone r) ks); [|now apply IH].
  simpl. constructor; [|now apply IH].
  intros Hin. apply Hnotin. now apply (scanned_ids ks).
Qed.

Lemma unique_id_same_row (t : table) (a b : row) :
  NoDup (map id t) -> In a t -> In b t -> id a = id b -> a = b.
Proof.
  induction t as [|r t IH]; intros Hnd Ha Hb Hid; [contradiction|].
  inversion Hnd as [|? ? Hnotin Hnd']; subst.
  destruct Ha as [->|Ha], Hb as [->|Hb]; auto.
  - exfalso. apply Hnotin. rewrite Hid. now apply in_map.
  - exfalso. apply Hnotin. rewrite <- Hid. now apply in_map.
Qed.

(** X5: on a table where no two rows share an identifier, and with every
    statement served, [fix_all_timezones] leaves the table that the
    generated [normalize_timezone] describes: every row keeps its place,
    its identifier and its other columns, and holds the normalised form of
    the timezone it held. *)
Theorem fix_all_timezones_normalizes_table (w : world) :
  ready w ->
  NoDup (map id (view w)) ->
  exists rep w',
    fix_all_timezones TIMEZONE_MAPPING w = (Returned rep, w') /\
    view w' = map normalize_row (view w).
Proof.
  intros Hr Hnd.
  destruct (fix_all_timezones_all_fixed _ w Hr TIMEZONE_MAPPING_nonempty)
    as (w' & msgs & Hrun & _ & Hv & _).
  eexists. exists w'. split; [exact Hrun|]. rewrite Hv.
  apply map_ext_in. intros r Hin.
  set (l := select_legacy (keys TIMEZONE_MAPPING) (view w)).
  assert (Hkeys : forall u, In u l ->
                            mem (snd u) (keys TIMEZONE_MAPPING) = true).
  { intros u Hu. apply select_legacy_keys in Hu as (_ & _ & _ & _ & Hk).
    now apply mem_In. }
  rewrite fix_row_unique; auto.
  - destruct (existsb _ l) eqn:Hex; [reflexivity|].
    symmetry. apply normalize_row_canonical.
    destruct (mem (timezone r) (keys TIMEZONE_MAPPING)) eqn:Hm; [|reflexivity].
    assert (Hu : In (id r, timezone r) l).
    { apply select_legacy_keys. exists r. repeat split; auto.
      now apply mem_In. }
    assert (Hyes : existsb (fun u => Z.eqb (fst u) (id r)) l = true).
    { apply existsb_exists. exists (id r, timezone r).
      split; [exact Hu | apply Z.eqb_refl]. }
    congruence.
  - now apply scanned_ids_unique.
  - intros u Hu Hfst.
    apply select_legacy_keys in Hu as (r' & Hin' & Hid' & Htz' & _).
    assert (r' = r)
      by (apply (unique_id_same_row (view w)); auto; congruence).
    congruence.
Qed.

Lemma fix_all_timezones_normalizes_table_witness :
  ready (session two_users) /\
  NoDup (map id (view (session two_users))) /\
  view (snd (fix_all_timezones TIMEZONE_MAPPING (session two_users)))
  = [mkRow 1 "America/Chicago" ["deck 7"];
     mkRow 2 "America/New_York" ["deck 9"]].
Proof.
  assert (Hr : ready (session two_users)) by apply ready_session.
  assert (Hnd : NoDup (map id (view (session two_users)))).
  { simpl. repeat constructor; simpl; intuition discriminate. }
  split; [exact Hr|]. split; [exact Hnd|].
  destruct (fix_all_timezones_normalizes_table _ Hr Hnd)
    as (rep & w' & Hrun & Hv).
  rewrite Hrun. exact Hv.
Defined.

(** ** After a database error *)

Lemma send_statement_failed (w : world) :
  txn_failed w = true ->
  exists w',
    send_statement w = (Raised Psycopg2Error, w') /\
    txn_failed w' = true /\ connection w' = connection w /\
    console w' = console w.
Proof.
  intros Hf. rewrite send_statement_eq. cbv zeta. rewrite Hf.
  eexists. split; [reflexivity|].
  destruct (hd Proceed (script w)); auto.
Qed.






(** ** What only reads *)

Lemma send_statement_untouched (w0 : world) :
  preserves (untouched w0) send_statement.
Proof.
  intros w (Hv & Hs & Ha & Hu). rewrite send_statement_eq. cbv zeta.
  pose proof (undisturbed_tl _ Hu) as Htl.
  destruct (hd Proceed (script w)) as [|x|t] eqn:Hhd.
  - destruct (txn_failed w); now repeat split.
  - destruct (txn_failed w); [|destruct (is_psycopg2_error x)];
      now repeat split.
  - now apply undisturbed_hd in Hhd.
Qed.

Lemma print_untouched (w0 : world) (m : msg) :
  preserves (untouched w0) (print m).
Proof. intros w H. exact H. Qed.

Lemma cursor_untouched (w0 : world) : preserves (untouched w0) cursor.
Proof. intros w H. unfold cursor. destruct (connection w); exact H. Qed.

Lemma execute_select_in_untouched (w0 : world) (ks : list string) :
  preserves (untouched w0) (execute_select_in ks).
Proof.
  apply preserves_bind; [apply send_statement_untouched|].
  intros _. destruct ks; intros w H; exact H.
Qed.

Lemma execute_select_date_untouched (w0 : world) (tz : string) :
  preserves (untouched w0) (execute_select_date tz).
Proof.
  apply preserves_bind; [apply send_statement_untouched|].
  intros _ w H. exact H.
Qed.

(** X7: the scan and the probe only read.  While no other client writes,
    [get_invalid_timezones] and [test_timezone_query] leave the rows as
    the connection sees them, the committed rows and the mapping file as
    they were, whether they return or raise. *)
Theorem scan_and_probe_only_read (w : world) (tz : string) :
  undisturbed (script w) ->
  let w1 := snd (get_invalid_timezones TIMEZONE_MAPPING w) in
  let w2 := snd (test_timezone_query tz w) in
  (view w1 = view w /\ store w1 = store w /\ artifact w1 = artifact w) /\
  (view w2 = view w /\ store w2 = store w /\ artifact w2 = artifact w).
Proof.
  intros Hu w1 w2.
  assert (H0 : untouched w w) by (repeat split; auto).
  split.
  - destruct (preserves_get_invalid_timezones
                (untouched w) (cursor_untouched w)
                (execute_select_in_untouched w) TIMEZONE_MAPPING w H0)
      as (Hv & Hs & Ha & _).
    auto.
  - destruct (preserves_test_timezone_query
                (untouched w) (print_untouched w) (cursor_untouched w)
                (execute_select_date_untouched w) tz w H0)
      as (Hv & Hs & Ha & _).
    auto.
Qed.

Lemma scan_and_probe_only_read_witness :
  undisturbed (script (refused_session two_users)) /\
  view (snd (get_invalid_timezones TIMEZONE_MAPPING
                                   (refused_session two_users)))
  = two_users /\
  view (snd (test_timezone_query "US/Central" (refused_session two_users)))
  = two_users.
Proof.
  assert (Hu : undisturbed (script (refused_session two_users)))
    by (repeat constructor).
  split; [exact Hu|].
  destruct (scan_and_probe_only_read (refused_session two_users)
                                     "US/Central" Hu)
    as ((Hv1 & _) & (Hv2 & _)).
  split; [exact Hv1 | exact Hv2].
Defined.

(** ** Without an open connection *)

(** X8: on a connection that is absent or closed, where [cursor()] raises,
    the scan, the probe and [fix_timezone] on a mapped name raise that
    same error and change nothing, and [fix_all_timezones] raises it once
    it has announced the scan.  [fix_timezone] and [test_timezone_query]
    do not turn this error into [False]: their cursor is made before the
    [try]. *)
Theorem methods_need_an_open_connection (w w0 : world) (e : exn) :
  cursor w = (Raised e, w0) ->
  get_invalid_timezones TIMEZONE_MAPPING w = (Raised e, w) /\
  (forall tz, test_timezone_query tz w = (Raised e, w)) /\
  (forall user_id old_timezone new_timezone,
      lookup old_timezone TIMEZONE_MAPPING = Some new_timezone ->
      fix_timezone TIMEZONE_MAPPING user_id old_timezone w = (Raised e, w)) /\
  fix_all_timezones TIMEZONE_MAPPING w
  = (Raised e, set_console (console w ++ [Scanning]) w).
Proof.
  intros Hcur.
  assert (Hw : cursor w = (Raised e, w)).
  { unfold cursor in *. destruct (connection w); congruence. }
  split; [|split; [|split]].
  - unfold get_invalid_timezones. now rewrite (bind_raised _ _ _ _ _ Hw).
  - intros tz. unfold test_timezone_query.
    now rewrite (bind_raised _ _ _ _ _ Hw).
  - intros user_id old_timezone new_timezone Hl. unfold fix_timezone.
    rewrite Hl. now rewrite (bind_raised _ _ _ _ _ Hw).
  - unfold fix_all_timezones.
    rewrite (bind_returned _ _ _ _ _ (print_eq Scanning w)).
    assert (Hw' : get_invalid_timezones
                    TIMEZONE_MAPPING (set_console (console w ++ [Scanning]) w)
                  = (Raised e, set_console (console w ++ [Scanning]) w)).
    { unfold get_invalid_timezones, bind, cursor in *. simpl.
      destruct (connection w); congruence. }
    now rewrite (bind_raised _ _ _ _ _ Hw').
Qed.

Lemma methods_need_an_open_connection_witness :
  cursor (closed_session two_users)
  = (Raised Psycopg2Error, closed_session two_users) /\
  fix_timezone TIMEZONE_MAPPING 1 "US/Central" (closed_session two_users)
  = (Raised Psycopg2Error, closed_session two_users) /\
  test_timezone_query "US/Central" (closed_session two_users)
  = (Raised Psycopg2Error, closed_session two_users).
Proof.
  split; [reflexivity|].
  destruct (methods_need_an_open_connection
              (closed_session two_users) _ Psycopg2Error eq_refl)
    as (_ & Hprobe & Hfix & _).
  split; [exact (Hfix 1 "US/Central" "America/Chicago" eq_refl)|].
  exact (Hprobe "US/Central").
Defined.

(** ** The guard of [fix_timezone] *)

Lemma send_statement_console (w : world) :
  console (snd (send_statement w)) = console w.
Proof.
  rewrite send_statement_eq. cbv zeta.
  destruct (hd Proceed (script w)) as [|x|t];
    destruct (txn_failed w); try reflexivity.
  destruct (is_psycopg2_error x); reflexivity.
Qed.

Lemma same_console_no_mapping_missed {A} (w0 : world) (m : M A) :
  (forall w, console (snd (m w)) = console w) ->
  preserves (no_mapping_missed w0) m.
Proof.
  intros Hm w (msgs & Hc & Hno). exists msgs. now rewrite Hm.
Qed.

Lemma print_no_mapping_missed (w0 : world) (m : msg) :
  (forall tz, m <> NoMappingFound tz) ->
  preserves (no_mapping_missed w0) (print m).
Proof.
  intros Hm w (msgs & Hc & Hno). exists (msgs ++ [m])%list. simpl. split.
  - now rewrite Hc, app_assoc.
  - intros tz Hin. apply in_app_iff in Hin as [Hin|[Heq|[]]].
    + exact (Hno tz Hin).
    + exact (Hm tz Heq).
Qed.

Lemma cursor_no_mapping_missed (w0 : world) :
  preserves (no_mapping_missed w0) cursor.
Proof.
  apply same_console_no_mapping_missed. intros w. unfold cursor.
  now destruct (connection w).
Qed.

Lemma execute_select_in_no_mapping_missed (w0 : world) (ks : list string) :
  preserves (no_mapping_missed w0) (execute_select_in ks).
Proof.
  apply same_console_no_mapping_missed. intros w.
  unfold execute_select_in, bind.
  pose proof (send_statement_console w) as Hc.
  destruct (send_statement w) as [[[]|e] w1]; [|exact Hc].
  destruct ks; exact Hc.
Qed.

Lemma execute_update_no_mapping_missed (w0 : world) (tz : string) (i : Z) :
  preserves (no_mapping_missed w0) (execute_update tz i).
Proof.
  apply same_console_no_mapping_missed. intros w.
  unfold execute_update, bind.
  pose proof (send_statement_console w) as Hc.
  destruct (send_statement w) as [[[]|e] w1]; [|exact Hc].
  simpl in *. now destruct (autocommit w1).
Qed.

Lemma execute_select_timezone_no_mapping_missed (w0 : world) (i : Z) :
  preserves (no_mapping_missed w0) (execute_select_timezone i).
Proof.
  apply same_console_no_mapping_missed. intros w.
  unfold execute_select_timezone, bind.
  pose proof (send_statement_console w) as Hc.
  destruct (send_statement w) as [[[]|e] w1]; exact Hc.
Qed.

Lemma fix_timezone_no_mapping_missed (w0 : world) (mapping : dict)
      (user_id : Z) (old_timezone new_timezone : string) :
  lookup old_timezone mapping = Some new_timezone ->
  preserves (no_mapping_missed w0)
            (fix_timezone mapping user_id old_timezone).
Proof.
  intros Hl. unfold fix_timezone. rewrite Hl.
  apply preserves_bind; [apply cursor_no_mapping_missed|]. intros _.
  apply preserves_finally; [|apply preserves_ret].
  apply preserves_except_psycopg2.
  - apply preserves_bind; [apply execute_update_no_mapping_missed|].
    intros _.
    apply preserves_bind; [apply execute_select_timezone_no_mapping_missed|].
    intros rows.
    destruct (fetchone rows) as [tz|];
      [destruct (String.eqb tz new_timezone)|];
      (apply preserves_bind;
       [apply print_no_mapping_missed; discriminate
       |intros _; apply preserves_ret]).
  - apply preserves_bind;
      [apply print_no_mapping_missed; discriminate
      |intros _; apply preserves_ret].
Qed.

Lemma fix_loop_no_mapping_missed (w0 : world) (mapping : dict)
      (l : list (Z * string)) :
  (forall u, In u l -> mem (snd u) (keys mapping) = true) ->
  forall f g, preserves (no_mapping_missed w0) (fix_loop mapping l f g).
Proof.
  induction l as [|[user_id old_timezone] l IH]; intros Hkeys f g.
  - apply preserves_ret.
  - destruct (proj1 (lookup_mem old_timezone mapping)) as [new_timezone Hl].
    { apply (Hkeys (user_id, old_timezone)). now left. }
    cbn [fix_loop]. apply preserves_bind.
    + exact (fix_timezone_no_mapping_missed _ _ _ _ _ Hl).
    + intros []; apply IH; intros u Hu; apply Hkeys; now right.
Qed.

(** Whatever the outside does, what the scan returns are keys of the
    mapping. *)
Lemma get_invalid_timezones_returns_keys (mapping : dict) (w w' : world)
      (rows : list (Z * string)) :
  get_invalid_timezones mapping w = (Returned rows, w') ->
  forall u, In u rows -> mem (snd u) (keys mapping) = true.
Proof.
  unfold get_invalid_timezones, execute_select_in, bind.
  destruct (cursor w) as [[[]|e] w1]; [|discriminate].
  destruct (send_statement w1) as [[[]|e] w2]; [|discriminate].
  destruct (keys mapping) as [|k ks] eqn:Hk; [discriminate|].
  intros [= <- <-] u Hu.
  apply select_legacy_keys in Hu as (_ & _ & _ & _ & Hin).
  apply (mem_In (snd u) (k :: ks)). exact Hin.
Qed.

(** X9: the guard of [fix_timezone] never fires from [fix_all_timezones].
    Whatever the outside does, a run of [fix_all_timezones] adds messages
    to the console, none of which is the message of line 87: the names it
    hands to [fix_timezone] come from the scan, which returns keys of the
    mapping only. *)
Theorem fix_all_timezones_always_has_a_mapping (w : world) :
  exists msgs,
    console (snd (fix_all_timezones TIMEZONE_MAPPING w))
    = (console w ++ msgs)%list /\
    forall tz, ~ In (NoMappingFound tz) msgs.
Proof.
  assert (H0 : no_mapping_missed w w).
  { exists []. split; [now rewrite app_nil_r | intros tz []]. }
  assert (H1 : no_mapping_missed w (set_console (console w ++ [Scanning]) w)).
  { apply (print_no_mapping_missed w Scanning); [discriminate | exact H0]. }
  unfold fix_all_timezones.
  rewrite (bind_returned _ _ _ _ _ (print_eq Scanning w)).
  pose proof (preserves_get_invalid_timezones
                (no_mapping_missed w) (cursor_no_mapping_missed w)
                (execute_select_in_no_mapping_missed w) TIMEZONE_MAPPING
                _ H1) as H2.
  unfold bind at 1.
  destruct (get_invalid_timezones TIMEZONE_MAPPING _)
    as [[rows|e] w2] eqn:Hscan; [|exact H2].
  simpl in H2. destruct rows as [|u rows].
  - apply (preserves_bind (no_mapping_missed w)); [| |exact H2].
    + apply print_no_mapping_missed. discriminate.
    + intros _. apply preserves_ret.
  - apply (preserves_bind (no_mapping_missed w)); [| |exact H2].
    + apply print_no_mapping_missed. discriminate.
    + intros _. apply fix_loop_no_mapping_missed.
      exact (get_invalid_timezones_returns_keys _ _ _ _ Hscan).
Qed.

(** ** A run in which every call is served *)

Lemma connect_quiet (w : world) :
  quiet (script w) ->
  exists w1,
    connect w = (Returned true, w1) /\
    ready w1 /\ view w1 = store w /\
    console w1 = (console w ++ [Connected])%list /\
    artifact w1 = artifact w.
Proof.
  intros Hq. unfold connect, except_psycopg2, psycopg2_connect, bind.
  rewrite next_event_eq, (quiet_hd _ Hq). simpl.
  eexists. split; [reflexivity|]. simpl.
  split; [|auto]. split; [reflexivity|]. split; [reflexivity|].
  simpl. now apply quiet_tl.
Qed.

Lemma test_timezone_query_ready (tz : string) (w : world) :
  ready w ->
  exists w',
    test_timezone_query tz w = (Returned true, w') /\
    ready w' /\ view w' = view w /\
    console w' = (console w ++ [TimezoneWorks tz])%list /\
    artifact w' = artifact w.
Proof.
  intros Hr. unfold test_timezone_query.
  rewrite (bind_returned _ _ _ _ _ (cursor_open w (proj1 Hr))).
  unfold finally, except_psycopg2, execute_select_date.
  unfold bind at 1. unfold bind at 1.
  rewrite (send_statement_ready w Hr). simpl.
  eexists. split; [reflexivity|]. simpl.
  split; [now apply ready_next|]. auto.
Qed.

Lemma generate_timezone_mapping_file_ready (w : world) :
  ready w ->
  exists w',
    generate_timezone_mapping_file w = (Returned tt, w') /\
    ready w' /\ view w' = view w /\
    console w' = (console w ++ [GeneratedMappingFile])%list /\
    artifact w' = Some TimezoneMapping.timezone_mapping.
Proof.
  intros Hr. unfold generate_timezone_mapping_file, write_file, bind.
  rewrite next_event_eq, (quiet_hd _ (proj2 (proj2 Hr))). simpl.
  eexists. split; [reflexivity|]. simpl.
  split; [now apply ready_next|]. auto.
Qed.

Lemma main_body_ready (w : world) :
  ready w ->
  exists wb msgs,
    main_body TIMEZONE_MAPPING w = (Returned tt, wb) /\
    connection wb = OpenConnection /\
    artifact wb = Some TIMEZONE_MAPPING /\
    console wb
    = (console w
       ++ [TestingCompatibility; TimezoneWorks "US/Central";
           TimezoneWorks "America/Chicago"; FixingInvalid; Scanning]
       ++ msgs
       ++ [Results;
           FixedCount
             (List.length (select_legacy (keys TIMEZONE_MAPPING) (view w)));
           FailedCount 0; GeneratingMappingFile; GeneratedMappingFile;
           TestingFixed; TimezoneWorks "America/Chicago"; Completed])%list.
Proof.
  intros Hr. unfold main_body.
  rewrite (bind_returned _ _ _ _ _ (print_eq _ w)).
  set (wa := set_console (console w ++ [TestingCompatibility]) w).
  assert (Hra : ready wa) by exact Hr.
  destruct (test_timezone_query_ready "US/Central" wa Hra)
    as (w1 & H1 & Hr1 & Hv1 & Hc1 & Ha1).
  rewrite (bind_returned _ _ _ _ _ H1).
  destruct (test_timezone_query_ready "America/Chicago" w1 Hr1)
    as (w2 & H2 & Hr2 & Hv2 & Hc2 & Ha2).
  rewrite (bind_returned _ _ _ _ _ H2).
  rewrite (bind_returned _ _ _ _ _ (print_eq _ w2)).
  set (wc := set_console (console w2 ++ [FixingInvalid]) w2).
  assert (Hrc : ready wc) by exact Hr2.
  destruct (fix_all_timezones_all_fixed
              TIMEZONE_MAPPING wc Hrc TIMEZONE_MAPPING_nonempty)
    as (w3 & msgs & H3 & Hr3 & Hv3 & Hc3 & Ha3).
  rewrite (bind_returned _ _ _ _ _ H3).
  rewrite (bind_returned _ _ _ _ _ (print_eq _ w3)).
  rewrite (bind_returned _ _ _ _ _ (print_eq _ _)).
  rewrite (bind_returned _ _ _ _ _ (print_eq _ _)).
  rewrite (bind_returned _ _ _ _ _ (print_eq _ _)).
  match goal with
  | |- context [bind generate_timezone_mapping_file _ ?w] =>
      set (wd := w)
  end.
  assert (Hrd : ready wd) by exact Hr3.
  destruct (generate_timezone_mapping_file_ready wd Hrd)
    as (w5 & H5 & Hr5 & Hv5 & Hc5 & Ha5).
  rewrite (bind_returned _ _ _ _ _ H5).
  rewrite (bind_returned _ _ _ _ _ (print_eq _ w5)).
  set (we := set_console (console w5 ++ [TestingFixed]) w5).
  assert (Hre : ready we) by exact Hr5.
  destruct (test_timezone_query_ready "America/Chicago" we Hre)
    as (w6 & H6 & Hr6 & Hv6 & Hc6 & Ha6).
  rewrite (bind_returned _ _ _ _ _ H6).
  eexists. exists msgs. split; [reflexivity|].
  split; [exact (proj1 Hr6)|]. split.
  - simpl. rewrite Ha6. exact Ha5.
  - simpl. rewrite Hc6. subst we. simpl. rewrite Hc5. subst wd. simpl.
    rewrite Hc3. subst wc. simpl. rewrite Hc2, Hc1. subst wa. simpl.
    replace (view w2) with (view w) by (rewrite Hv2, Hv1; reflexivity).
    repeat rewrite <- app_assoc. reflexivity.
Qed.

(** X10: a run in which every call is served ends with status 0.  The
    connection is made and closed, the two probes and the last one succeed,
    every row that held a key of the mapping is reported as fixed and none
    as failed, the mapping file is written with the mapping of line 25, and
    the console shows the steps in the order of the script, whatever the
    table holds. *)
Theorem main_succeeds_when_served (t : table) (s : list event) :
  quiet s ->
  exists msgs,
    fst (main TIMEZONE_MAPPING (start t s)) = Returned 0 /\
    connection (snd (main TIMEZONE_MAPPING (start t s))) = ClosedConnection /\
    artifact (snd (main TIMEZONE_MAPPING (start t s)))
    = Some TIMEZONE_MAPPING /\
    console (snd (main TIMEZONE_MAPPING (start t s)))
    = ([Banner; Rule; Connected; TestingCompatibility;
        TimezoneWorks "US/Central"; TimezoneWorks "America/Chicago";
        FixingInvalid; Scanning]
       ++ msgs
       ++ [Results;
           FixedCount (List.length (select_legacy (keys TIMEZONE_MAPPING) t));
           FailedCount 0; GeneratingMappingFile; GeneratedMappingFile;
           TestingFixed; TimezoneWorks "America/Chicago"; Completed;
           ConnectionClosed])%list.
Proof.
  intros Hq.
  destruct (connect_quiet (snd ((print Banner ;; print Rule) (start t s))) Hq)
    as (w1 & Hconn & Hr1 & Hv1 & Hc1 & Ha1).
  rewrite (main_after_connect _ _ _ Hconn).
  destruct (main_body_ready w1 Hr1) as (wb & msgs & Hb & Hcb & Hab & Hconsole).
  exists msgs. unfold finally, except_Exception.
  rewrite (bind_returned _ _ _ _ _ Hb). simpl.
  rewrite (disconnect_connected wb Hcb). simpl.
  split; [reflexivity|]. split; [reflexivity|]. split; [exact Hab|].
  rewrite Hconsole, Hc1, Hv1. simpl.
  repeat rewrite <- app_assoc. reflexivity.
Qed.

Lemma main_succeeds_when_served_witness :
  quiet [Proceed; Proceed] /\
  fst (main TIMEZONE_MAPPING (start two_users [Proceed; Proceed]))
  = Returned 0 /\
  In (FixedCount 2)
     (console (snd (main TIMEZONE_MAPPING
                         (start two_users [Proceed; Proceed])))).
Proof.
  assert (Hq : quiet [Proceed; Proceed]) by (repeat constructor).
  split; [exact Hq|].
  destruct (main_succeeds_when_served two_users [Proceed; Proceed] Hq)
    as (msgs & Hexit & _ & _ & Hconsole).
  split; [exact Hexit|].
  rewrite Hconsole. apply in_app_iff. right. apply in_app_iff. right.
  simpl. auto.
Defined.

(** ** What status 0 stands for *)

Lemma bind_returned_inv {A B} (m : M A) (k : A -> M B) (w w' : world)
      (b : B) :
  bind m k w = (Returned b, w') ->
  exists a w1, m w = (Returned a, w1) /\ k a w1 = (Returned b, w').
Proof.
  unfold bind. destruct (m w) as [[a|e] w1]; [eauto | discriminate].
Qed.

Lemma send_statement_artifact (w : world) :
  artifact (snd (send_statement w)) = artifact w.
Proof.
  rewrite send_statement_eq. cbv zeta.
  destruct (hd Proceed (script w)) as [|x|t];
    destruct (txn_failed w); try reflexivity.
  destruct (is_psycopg2_error x); reflexivity.
Qed.

Lemma test_timezone_query_artifact (a : option dict) (tz : string) :
  preserves (fun w => artifact w = a) (test_timezone_query tz).
Proof.
  apply preserves_test_timezone_query.
  - intros m w H. exact H.
  - intros w H. unfold cursor. destruct (connection w); exact H.
  - intros tz' w H. unfold execute_select_date, bind.
    pose proof (send_statement_artifact w) as Hs.
    destruct (send_statement w) as [[[]|e] w1]; simpl in *; congruence.
Qed.

Lemma generate_timezone_mapping_file_returned (w w' : world) :
  generate_timezone_mapping_file w = (Returned tt, w') ->
  artifact w' = Some TimezoneMapping.timezone_mapping.
Proof.
  unfold generate_timezone_mapping_file, write_file, bind.
  rewrite next_event_eq.
  destruct (hd Proceed (script w)) as [|x|t]; simpl;
    try discriminate; now intros [= <-].
Qed.

Lemma main_body_returned (mapping : dict) (w wb : world) :
  main_body mapping w = (Returned tt, wb) ->
  artifact wb = Some TimezoneMapping.timezone_mapping /\
  exists c, console wb = (c ++ [Completed])%list.
Proof.
  unfold main_body. intros H.
  apply bind_returned_inv in H as (a1 & w1 & _ & H).
  apply bind_returned_inv in H as (a2 & w2 & _ & H).
  apply bind_returned_inv in H as (a3 & w3 & _ & H).
  apply bind_returned_inv in H as (a4 & w4 & _ & H).
  apply bind_returned_inv in H as (a5 & w5 & _ & H).
  apply bind_returned_inv in H as (a6 & w6 & _ & H).
  apply bind_returned_inv in H as (a7 & w7 & _ & H).
  apply bind_returned_inv in H as (a8 & w8 & _ & H).
  apply bind_returned_inv in H as (a9 & w9 & _ & H).
  apply bind_returned_inv in H as ([] & w10 & Hgen & H).
  apply bind_returned_inv in H as (a11 & w11 & Hp & H).
  apply bind_returned_inv in H as (a12 & w12 & Hq & H).
  apply generate_timezone_mapping_file_returned in Hgen.
  injection Hp as _ <-.
  pose proof (test_timezone_query_artifact
                _ "America/Chicago"
                (set_console (console w10 ++ [TestingFixed]) w10) Hgen) as Ha.
  rewrite Hq in Ha. simpl in Ha.
  injection H as <-. simpl. eauto.
Qed.

(** X11: status 0 is the status of a complete run only.  From whatever
    world and whatever the outside does, when [main] ends with status 0
    the mapping file has been written with the mapping of line 25, the
    connection has been closed, and the last two messages are that of
    completion and that of the closing. *)
Theorem main_status_zero_is_complete (w : world) :
  exit_code (fst (main TIMEZONE_MAPPING w)) = 0 ->
  artifact (snd (main TIMEZONE_MAPPING w)) = Some TIMEZONE_MAPPING /\
  connection (snd (main TIMEZONE_MAPPING w)) = ClosedConnection /\
  exists c,
    console (snd (main TIMEZONE_MAPPING w))
    = (c ++ [Completed; ConnectionClosed])%list.
Proof.
  destruct (connect (snd ((print Banner ;; print Rule) w)))
    as [[[]|e] w1] eqn:Hconn.
  - rewrite (main_after_connect _ _ _ Hconn).
    destruct (connect_true _ _ Hconn) as (Hc1 & _).
    pose proof (main_body_connected TIMEZONE_MAPPING w1 Hc1) as Hcb.
    unfold finally, except_Exception, bind.
    destruct (main_body TIMEZONE_MAPPING w1) as [[[]|e] wb] eqn:Hb;
      simpl in Hcb; simpl; [|discriminate].
    intros _. rewrite (disconnect_connected wb Hcb). simpl.
    destruct (main_body_returned _ _ _ Hb) as (Ha & c & Hc).
    split; [exact Ha|]. split; [reflexivity|].
    exists c. rewrite Hc, <- app_assoc. reflexivity.
  - unfold main.
    rewrite (bind_returned _ _ _ _ _ (print_eq Banner w)).
    rewrite (bind_returned _ _ _ _ _ (print_eq Rule _)).
    simpl in Hconn. rewrite (bind_returned _ _ _ _ _ Hconn).
    discriminate.
  - unfold main.
    rewrite (bind_returned _ _ _ _ _ (print_eq Banner w)).
    rewrite (bind_returned _ _ _ _ _ (print_eq Rule _)).
    simpl in Hconn. rewrite (bind_raised _ _ _ _ _ Hconn).
    discriminate.
Qed.

Lemma main_status_zero_is_complete_witness :
  exit_code (fst (main TIMEZONE_MAPPING (start two_users []))) = 0 /\
  artifact (snd (main TIMEZONE_MAPPING (start two_users [])))
  = Some TIMEZONE_MAPPING.
Proof.
  assert (H : exit_code (fst (main TIMEZONE_MAPPING (start two_users []))) = 0)
    by (vm_compute; reflexivity).
  split; [exact H|].
  exact (proj1 (main_status_zero_is_complete (start two_users []) H)).
Defined.

(** ** One message for each row *)

Lemma execute_update_console (tz : string) (i : Z) (w : world) :
  console (snd (execute_update tz i w)) = console w.
Proof.
  unfold execute_update, bind.
  pose proof (send_statement_console w) as Hc.
  destruct (send_statement w) as [[[]|e] w1]; [|exact Hc].
  simpl in *. now destruct (autocommit w1).
Qed.

Lemma execute_select_timezone_console (i : Z) (w : world) :
  console (snd (execute_select_timezone i w)) = console w.
Proof.
  unfold execute_select_timezone, bind.
  pose proof (send_statement_console w) as Hc.
  destruct (send_statement w) as [[[]|e] w1]; exact Hc.
Qed.

Lemma fix_timezone_one_message (mapping : dict) (user_id : Z)
      (old_timezone : string) (w w' : world) (b : bool) :
  fix_timezone mapping user_id old_timezone w = (Returned b, w') ->
  exists m, console w' = (console w ++ [m])%list /\ is_updated m = b.
Proof.
  destruct (lookup old_timezone mapping) as [new_timezone|] eqn:Hl.
  - destruct (connection w) eqn:Hc;
      try (unfold fix_timezone, bind, cursor; rewrite Hl, Hc; discriminate).
    rewrite (fix_timezone_mapped _ _ _ _ _ Hl Hc).
    pose proof (execute_update_console new_timezone user_id w) as Hc1.
    destruct (execute_update new_timezone user_id w) as [[[]|e] w1];
      simpl in Hc1.
    + pose proof (execute_select_timezone_console user_id w1) as Hc2.
      destruct (execute_select_timezone user_id w1) as [[rows|e] w2];
        simpl in Hc2.
      * destruct (fetchone rows) as [tz|];
          [destruct (String.eqb tz new_timezone)|];
          intros [= <- <-]; eexists; simpl;
          (split; [rewrite Hc2, Hc1; reflexivity | reflexivity]).
      * destruct e; try discriminate.
        intros [= <- <-]; eexists; simpl;
          (split; [rewrite Hc2, Hc1; reflexivity | reflexivity]).
    + destruct e; try discriminate.
      intros [= <- <-]; eexists; simpl;
        (split; [rewrite Hc1; reflexivity | reflexivity]).
  - rewrite (fix_timezone_unmapped _ _ _ _ Hl).
    intros [= <- <-]. eexists. split; reflexivity.
Qed.

(** X12: the report agrees with the console.  Whatever the outside does,
    when the loop returns it has printed one message for each row it was
    given; the rows it counts as fixed are as many as the messages of line
    108 among them, and the rows it counts as failed as many as the
    others. *)
Theorem report_agrees_with_messages (invalid_users : list (Z * string)) :
  forall (f g : nat) (w w' : world) (rep : report),
    fix_loop TIMEZONE_MAPPING invalid_users f g w = (Returned rep, w') ->
    exists msgs,
      console w' = (console w ++ msgs)%list /\
      List.length msgs = List.length invalid_users /\
      (fixed rep = f + List.length (filter is_updated msgs))%nat /\
      (failed rep
       = g + List.length (filter (fun m => negb (is_updated m)) msgs))%nat.
Proof.
  induction invalid_users as [|[user_id old_timezone] l IH];
    intros f g w w' rep H.
  - injection H as <- <-. exists []. simpl.
    rewrite app_nil_r, !Nat.add_0_r. auto.
  - cbn [fix_loop] in H.
    apply bind_returned_inv in H as (b & w1 & Hfix & H).
    destruct (fix_timezone_one_message _ _ _ _ _ _ Hfix) as (m & Hc & Hm).
    destruct b.
    + destruct (IH _ _ _ _ _ H) as (msgs & Hc' & Hlen & Hf & Hg).
      exists (m :: msgs). simpl. rewrite Hm. simpl.
      rewrite Hc', Hc, <- app_assoc. repeat split; auto; lia.
    + destruct (IH _ _ _ _ _ H) as (msgs & Hc' & Hlen & Hf & Hg).
      exists (m :: msgs). simpl. rewrite Hm. simpl.
      rewrite Hc', Hc, <- app_assoc. repeat split; auto; lia.
Qed.

Lemma report_agrees_with_messages_witness :
  fst (fix_loop TIMEZONE_MAPPING [(1, "US/Central"); (7, "US/Eastern")] 0 0
                (session two_users))
  = Returned (mkReport 1 1) /\
  exists msgs,
    console (snd (fix_loop TIMEZONE_MAPPING
                           [(1, "US/Central"); (7, "US/Eastern")] 0 0
                           (session two_users)))
    = msgs /\
    List.length msgs = 2%nat /\
    List.length (filter is_updated msgs) = 1%nat.
Proof.
  split; [reflexivity|].
  destruct (report_agrees_with_messages
              [(1, "US/Central"); (7, "US/Eastern")] 0 0
              (session two_users)
              (snd (fix_loop TIMEZONE_MAPPING
                             [(1, "US/Central"); (7, "US/Eastern")] 0 0
                             (session two_users)))
              (mkReport 1 1))
    as (msgs & Hc & Hlen & Hf & _).
  - vm_compute. reflexivity.
  - exists msgs. split; [exact Hc|]. split; [exact Hlen|].
    simpl in Hf. lia.
Defined.

(** ** Probing and scanning after a database error *)

(** X13: after a database error the probe says nothing of the zone.  On an
    open connection whose transaction has failed, [test_timezone_query]
    returns [False] after the message of line 163 for every name it is
    given, a name the server knows included, and the scan raises the
    database error, which [fix_all_timezones] lets through. *)
Theorem failed_transaction_fails_probe_and_scan (w : world) :
  connection w = OpenConnection ->
  txn_failed w = true ->
  (forall tz,
      exists w',
        test_timezone_query tz w = (Returned false, w') /\
        console w' = (console w ++ [TimezoneError tz])%list /\
        txn_failed w' = true) /\
  (exists w',
      get_invalid_timezones TIMEZONE_MAPPING w = (Raised Psycopg2Error, w')) /\
  (exists w',
      fix_all_timezones TIMEZONE_MAPPING w = (Raised Psycopg2Error, w')).
Proof.
  intros Hc Hf.
  assert (Hscan : forall w0,
             connection w0 = OpenConnection -> txn_failed w0 = true ->
             exists w',
               get_invalid_timezones TIMEZONE_MAPPING w0
               = (Raised Psycopg2Error, w')).
  { intros w0 Hc0 Hf0. unfold get_invalid_timezones, execute_select_in.
    rewrite (bind_returned _ _ _ _ _ (cursor_open w0 Hc0)).
    unfold bind.
    destruct (send_statement_failed w0 Hf0) as (w1 & -> & _).
    eauto. }
  split; [|split].
  - intros tz. unfold test_timezone_query.
    rewrite (bind_returned _ _ _ _ _ (cursor_open w Hc)).
    unfold finally, except_psycopg2, execute_select_date, bind.
    destruct (send_statement_failed w Hf)
      as (w1 & -> & Hf1 & _ & Hc1).
    eexists. split; [reflexivity|]. simpl. split; congruence.
  - now apply Hscan.
  - unfold fix_all_timezones.
    rewrite (bind_returned _ _ _ _ _ (print_eq Scanning w)).
    destruct (Hscan (set_console (console w ++ [Scanning]) w) Hc Hf)
      as (w1 & H1).
    rewrite (bind_raised _ _ _ _ _ H1). eauto.
Qed.

Lemma failed_transaction_fails_probe_and_scan_witness :
  connection (failed_session two_users) = OpenConnection /\
  txn_failed (failed_session two_users) = true /\
  fst (test_timezone_query "America/Chicago" (failed_session two_users))
  = Returned false /\
  fst (get_invalid_timezones TIMEZONE_MAPPING (failed_session two_users))
  = Raised Psycopg2Error.
Proof.
  split; [reflexivity|]. split; [reflexivity|].
  destruct (failed_transaction_fails_probe_and_scan
              (failed_session two_users) eq_refl eq_refl)
    as (Hprobe & (w1 & Hscan) & _).
  destruct (Hprobe "America/Chicago") as (w2 & Hp & _).
  rewrite Hp, Hscan. split; reflexivity.
Defined.
